(** * callprofiler: the profiling decorator and its sys.setprofile hook

    A shallow embedding of [python/callprofiler/profiler.py]: the
    classification helpers [_is_external] and [_extract_library_name], the
    closure [_profile_callback] and the decorator's [wrapper], together with a
    model of the reconstruction engine behind [process_events], which lives
    in the compiled extension module and is described by the specification
    only. *)

From Stdlib Require Import ZArith Ascii String List Lia Bool.
From stdpp Require Import base option list strings gmap.

Set Warnings "-register-all".

Local Open Scope Z_scope.
Local Open Scope string_scope.
Local Open Scope list_scope.
#[local] Arguments append s1 s2 : simpl nomatch.

(** ** Python strings *)

Module PyStr.

(** [s.startswith(p)] *)
Fixpoint startswith (s p : string) {struct p} : bool :=
  match p, s with
  | EmptyString, _ => true
  | String _ _, EmptyString => false
  | String a p', String b s' => Ascii.eqb a b && startswith s' p'
  end.

(** [m in s] *)
Fixpoint contains (m s : string) : bool :=
  startswith s m ||
  match s with
  | EmptyString => false
  | String _ s' => contains m s'
  end.

(** [s.find(m)]: the lowest index at which [m] occurs, [None] for -1. *)
Fixpoint find (m s : string) : option nat :=
  if startswith s m then Some 0%nat
  else match s with
       | EmptyString => None
       | String _ s' => S <$> find m s'
       end.

(** [s[n:]] *)
Fixpoint drop (n : nat) (s : string) : string :=
  match n, s with
  | O, _ => s
  | S n', String _ s' => drop n' s'
  | S _, EmptyString => EmptyString
  end.

(** [s.lstrip(c)] for a one-character [c] *)
Fixpoint lstrip (c : ascii) (s : string) : string :=
  match s with
  | String a s' => if Ascii.eqb a c then lstrip c s' else s
  | EmptyString => EmptyString
  end.

(** [s.split(c)] for a one-character separator: never the empty list. *)
Fixpoint split (c : ascii) (s : string) : list string :=
  match s with
  | EmptyString => [EmptyString]
  | String a s' =>
      if Ascii.eqb a c then EmptyString :: split c s'
      else match split c s' with
           | h :: t => String a h :: t
           | [] => [String a EmptyString]
           end
  end.

(** [l[0]] of a list that [split] returned *)
Definition first (l : list string) : string := hd EmptyString l.

(** [c.join(l)] *)
Fixpoint join (c : string) (l : list string) : string :=
  match l with
  | [] => EmptyString
  | [x] => x
  | x :: l' => x +:+ c +:+ join c l'
  end.

(** Truth value of a string: [if s:] *)
Definition truthy (s : string) : bool :=
  match s with EmptyString => false | _ => true end.

(** What "starts with" and "occurs in" mean, independently of the
    functions that decide them. *)
Definition starts_with (s p : string) : Prop := exists r, s = p +:+ r.
Definition occurs_in (m s : string) : Prop :=
  exists l r, s = l +:+ m +:+ r.

End PyStr.

(** ** Python values of type [str | None] *)

Inductive pyval : Type :=
| PyNone
| PyStr (s : string).

#[global] Instance pyval_eq_dec : EqDecision pyval.
Proof. solve_decision. Defined.

(** ** The platform the module is imported on

    [os.path.normpath], [os.sep], [sysconfig.get_paths()] and [sys.prefix]
    belong to the interpreter, not to the package: they are the fields of a
    record the definitions below are parameterised by. *)

Record Platform : Type := {
  os_sep : ascii;
  normpath : string -> string;
  get_paths : gmap string string;
  sys_prefix : string
}.

(** [posixpath.normpath], for running the definitions on concrete paths. *)
Module Posix.

Definition sep : ascii := "/"%char.

Definition keep_component (initial_slashes : nat) (new_comps : list string)
    (comp : string) : list string :=
  if bool_decide (comp = "" \/ comp = ".") then new_comps
  else if bool_decide (comp <> "..")
          || (Nat.eqb initial_slashes 0 && bool_decide (new_comps = []))
          || bool_decide (last new_comps = Some "..")
       then new_comps ++ [comp]
       else removelast new_comps.

Definition normpath (path : string) : string :=
  if bool_decide (path = "") then "."
  else
    let initial_slashes :=
      if PyStr.startswith path "/" then
        if PyStr.startswith path "//" && negb (PyStr.startswith path "///")
        then 2%nat else 1%nat
      else 0%nat in
    let comps := PyStr.split sep path in
    let new_comps := fold_left (keep_component initial_slashes) comps [] in
    let path := PyStr.join "/" new_comps in
    let path := PyStr.join "" (repeat "/" initial_slashes) +:+ path in
    if bool_decide (path = "") then "." else path.

(** [str(PurePosixPath(a) / b)]: the root is "/" (or "//" for exactly two
    leading slashes), empty and "." components are dropped, a rooted [b]
    replaces [a], and the empty path is spelt ".". *)
Definition root (s : string) : string :=
  if PyStr.startswith s "//" && negb (PyStr.startswith s "///") then "//"
  else if PyStr.startswith s "/" then "/"
  else "".

Definition parts (s : string) : list string :=
  List.filter
    (fun x => negb (bool_decide (x = "")) && negb (bool_decide (x = ".")))
    (PyStr.split sep s).

Definition spell (r : string) (ps : list string) : string :=
  match r, ps with
  | EmptyString, [] => "."
  | _, _ => r +:+ PyStr.join "/" ps
  end.

Definition path_div (a b : string) : string :=
  if PyStr.truthy (root b) then spell (root b) (parts b)
  else spell (root a) (parts a ++ parts b).

End Posix.

Definition posix_platform (paths : gmap string string) (prefix : string)
    : Platform :=
  {| os_sep := Posix.sep; normpath := Posix.normpath;
     get_paths := paths; sys_prefix := prefix |}.

(** ** Classification helpers *)

Definition _SITE_PACKAGES_MARKERS : list string :=
  ["site-packages"; "dist-packages"].
Definition _FROZEN_PREFIX : string := "<frozen".

Section Classification.

Variable P : Platform.

Definition _compute_stdlib_paths : list string :=
  let paths :=
    fold_left
      (fun paths key =>
         match get_paths P !! key with
         | Some p => if PyStr.truthy p then paths ++ [normpath P p]
                     else paths
         | None => paths
         end)
      ["stdlib"; "platstdlib"] [] in
  paths ++ [normpath P (sys_prefix P)].

Definition _STDLIB_PATHS : list string := _compute_stdlib_paths.

Definition _is_external (filename : pyval) : bool :=
  match filename with
  | PyNone => true
  | PyStr filename =>
      if PyStr.startswith filename _FROZEN_PREFIX
         || PyStr.startswith filename "<"
      then true
      else
        let norm := normpath P filename in
        if existsb (fun marker => PyStr.contains marker norm)
             _SITE_PACKAGES_MARKERS
        then true
        else if existsb (fun sp => PyStr.startswith norm sp) _STDLIB_PATHS
        then true
        else false
  end.

(** [rest.split(os.sep)[0]] where [rest] is what follows the marker found
    at [idx], stripped of leading separators. *)
Definition component_after (filename marker : string) (idx : nat) : string :=
  let rest :=
    PyStr.lstrip (os_sep P)
      (PyStr.drop (idx + String.length marker) filename) in
  PyStr.first (PyStr.split (os_sep P) rest).

(** The [for marker in _SITE_PACKAGES_MARKERS] loop of
    [_extract_library_name]: the path component after the first marker
    that occurs, [None] when the loop falls through. *)
Fixpoint marker_loop (filename : string) (markers : list string)
    : option string :=
  match markers with
  | [] => None
  | marker :: markers' =>
      match PyStr.find marker filename with
      | Some idx => Some (component_after filename marker idx)
      | None => marker_loop filename markers'
      end
  end.

Definition _extract_library_name (filename module : pyval) : string :=
  match module with
  | PyStr (String _ _ as module) =>
      PyStr.first (PyStr.split "."%char module)
  | _ =>
      match filename with
      | PyNone => "<builtin>"
      | PyStr filename =>
          match marker_loop filename _SITE_PACKAGES_MARKERS with
          | Some comp => PyStr.first (PyStr.split "."%char comp)
          | None => "<stdlib>"
          end
      end
  end.

End Classification.

(** ** What the interpreter hands to a profile function *)

Record code : Type := {
  co_name : string;
  co_filename : string;
  co_firstlineno : Z
}.

Record frame : Type := {
  f_code : code;
  f_globals : gmap string pyval
}.

(** The [arg] of a notification, as far as the callback looks at it: its
    [__name__] and [__module__] attributes when it has them, and [str(arg)]. *)
Record pyobject : Type := {
  attr___name__ : option string;
  attr___module__ : option pyval;
  str : string
}.

(** One element of the [events] list: a dict with these eight keys. *)
Record event_record : Type := {
  event : string;
  func_name : string;
  module : pyval;
  filename : string;
  lineno : Z;
  timestamp_ns : Z;
  is_external : bool;
  library_name : string
}.

Inductive exn : Type := PyExc (name : string).

Inductive result (A : Type) : Type :=
| Ok (a : A)
| Raise (e : exn).
Arguments Ok {A} a.
Arguments Raise {A} e.

(** ** The runtime around the wrapper

    The monotonic clock is the sequence of its successive readings; the file
    system, [process_events] (imported from the compiled module) and the
    standard output can fail. [path_div dir name] is
    [str(Path(dir) / name)]: how [pathlib] joins and spells a path belongs
    to the platform. [print_error out line] is the exception [print]
    raises, if any, when asked for [line] after the lines [out]. *)

Record Runtime : Type := {
  platform : Platform;
  perf_counter : nat -> Z;
  strftime : string;
  FS : Type;
  mkdir : string -> FS -> result FS;
  write_text : string -> string -> FS -> result FS;
  process_events : list event_record -> string -> Z -> Z -> result string;
  path_div : string -> string -> string;
  print_error : list string -> string -> option exn
}.

(** The profile function the thread has installed: the closure of the
    wrapper call under study, or one that other code installed. *)
Inductive profilefunc : Type :=
| Callback
| Foreign (id : nat).

Record World (R : Runtime) : Type := {
  sys_profile : option profilefunc;
  perf_reads : nat;
  events : list event_record;
  processed : list (list event_record * string * Z * Z);
  fs : FS R;
  stdout : list string
}.
Arguments sys_profile {R} _.
Arguments perf_reads {R} _.
Arguments events {R} _.
Arguments processed {R} _.
Arguments fs {R} _.
Arguments stdout {R} _.

(** The name of the profiler's own module. *)
Definition __name__ : string := "callprofiler.profiler".

(** ** A state and exception monad for the wrapper's body *)

Section Monad.

Context {R : Runtime}.

Definition M (A : Type) : Type := World R -> result A * World R.

Definition ret {A} (a : A) : M A := fun w => (Ok a, w).

Definition bind {A B} (m : M A) (k : A -> M B) : M B :=
  fun w =>
    match m w with
    | (Ok a, w') => k a w'
    | (Raise e, w') => (Raise e, w')
    end.

(** [try: body finally: fin]: [fin] runs on both exits of [body]; an
    exception of [fin] replaces whatever [body] produced. *)
Definition try_finally {A} (body : M A) (fin : M unit) : M A :=
  fun w =>
    let (r, w1) := body w in
    match fin w1 with
    | (Ok _, w2) => (r, w2)
    | (Raise e, w2) => (Raise e, w2)
    end.

Definition get {A} (proj : World R -> A) : M A := fun w => (Ok (proj w), w).

Definition set_sys_profile (h : option profilefunc) : M unit :=
  fun w => (Ok tt,
            {| sys_profile := h; perf_reads := perf_reads w;
               events := events w; processed := processed w;
               fs := fs w; stdout := stdout w |}).

Definition set_events (l : list event_record) : M unit :=
  fun w => (Ok tt,
            {| sys_profile := sys_profile w; perf_reads := perf_reads w;
               events := l; processed := processed w;
               fs := fs w; stdout := stdout w |}).

(** [events.append(r)] *)
Definition events_append (r : event_record) : M unit :=
  fun w => set_events (events w ++ [r]) w.

(** [time.perf_counter_ns()] *)
Definition perf_counter_ns : M Z :=
  fun w => (Ok (perf_counter R (perf_reads w)),
            {| sys_profile := sys_profile w; perf_reads := S (perf_reads w);
               events := events w; processed := processed w;
               fs := fs w; stdout := stdout w |}).

(** A fallible file-system operation. *)
Definition fs_op (op : FS R -> result (FS R)) : M unit :=
  fun w =>
    match op (fs w) with
    | Ok fs' => (Ok tt,
                 {| sys_profile := sys_profile w; perf_reads := perf_reads w;
                    events := events w; processed := processed w;
                    fs := fs'; stdout := stdout w |})
    | Raise e => (Raise e, w)
    end.

(** [print(line)]: the line joins the output unless the stream fails. *)
Definition print (line : string) : M unit :=
  fun w =>
    match print_error R (stdout w) line with
    | Some e => (Raise e, w)
    | None =>
        (Ok tt,
         {| sys_profile := sys_profile w; perf_reads := perf_reads w;
            events := events w; processed := processed w;
            fs := fs w; stdout := stdout w ++ [line] |})
    end.

(** The call into the compiled module, logged in [processed]. *)
Definition call_process_events (evs : list event_record) (name : string)
    (start_ns end_ns : Z) : M string :=
  fun w =>
    let w' := {| sys_profile := sys_profile w; perf_reads := perf_reads w;
                 events := events w;
                 processed := processed w ++ [(evs, name, start_ns, end_ns)];
                 fs := fs w; stdout := stdout w |} in
    (process_events R evs name start_ns end_ns, w').

End Monad.

Notation "x <- m ;; k" := (bind m (fun x => k))
  (at level 100, m at next level, right associativity).
Notation "m ;;; k" := (bind m (fun _ => k))
  (at level 100, right associativity).

(** ** The traced call, as the hook sees it

    One execution of the traced function is the sequence of notifications
    the interpreter raises while it runs ([call], [return], [c_call],
    [c_return], [c_exception], ...), interleaved with the traced code's own
    calls of [sys.setprofile], and the way it ends. *)

Inductive action : Type :=
| Notify (f : frame) (event : string) (arg : pyobject)
| SetProfile (caller : frame) (h : option nat).

Record execution (V : Type) : Type := {
  script : list action;
  outcome : result V
}.
Arguments script {V} _.
Arguments outcome {V} _.

Record pyfunction (V : Type) : Type := {
  fn___name__ : string;
  fn_call : list V -> gmap string V -> execution V
}.
Arguments fn___name__ {V} _.
Arguments fn_call {V} _ _ _.

(** The built-in [sys.setprofile], as an [arg]. *)
Definition setprofile_builtin : pyobject :=
  {| attr___name__ := Some "setprofile";
     attr___module__ := Some (PyStr "sys");
     str := "<built-in function setprofile>" |}.

(** The frame of [wrapper] itself. *)
Definition wrapper_frame : frame :=
  {| f_code := {| co_name := "wrapper";
                  co_filename := "python/callprofiler/profiler.py";
                  co_firstlineno := 76 |};
     f_globals := {[ "__name__" := PyStr __name__ ]} |}.

(** [x in (a, b)] on strings *)
Definition py_in (x : string) (l : list string) : bool :=
  existsb (String.eqb x) l.

Section Profile.

Context {R : Runtime} {V : Type}.

Definition _profile_callback (profiler_module : string)
    (frame : frame) (event : string) (arg : pyobject) : M (R := R) unit :=
  ts <- perf_counter_ns ;;
  if py_in event ["call"; "return"] then
    let code := f_code frame in
    let filename := co_filename code in
    let mod_ := default (PyStr "") (f_globals frame !! "__name__") in
    (* Skip callprofiler's own frames *)
    if bool_decide (mod_ = PyStr profiler_module) then ret tt
    else
      let is_ext := _is_external (platform R) (PyStr filename) in
      events_append
        {| event := event;
           func_name := co_name code;
           module := mod_;
           filename := filename;
           lineno := co_firstlineno code;
           timestamp_ns := ts;
           is_external := is_ext;
           library_name :=
             if is_ext
             then _extract_library_name (platform R) (PyStr filename) mod_
             else "" |}
  else if py_in event ["c_call"; "c_return"] then
    let c_func_name := default (str arg) (attr___name__ arg) in
    let c_module :=
      match default (PyStr "") (attr___module__ arg) with
      | PyStr s => s
      | PyNone => ""
      end in
    (* Skip sys.setprofile itself (called during teardown) *)
    if bool_decide (c_func_name = "setprofile") then ret tt
    else
      events_append
        {| event := event;
           func_name := c_func_name;
           module := PyStr c_module;
           filename := "";
           lineno := 0;
           timestamp_ns := ts;
           is_external := true;
           library_name :=
             if PyStr.truthy c_module
             then PyStr.first (PyStr.split "."%char c_module)
             else "builtins" |}
  else ret tt.

(** The interpreter raising a notification: it reaches the wrapper's
    closure only while that closure is the installed profile function. *)
Definition notify (f : frame) (event : string) (arg : pyobject)
    : M (R := R) unit :=
  fun w =>
    match sys_profile w with
    | Some Callback => _profile_callback __name__ f event arg w
    | _ => (Ok tt, w)
    end.

(** [sys.setprofile(h)] called from [caller]. When no profile function
    is installed, the call of the built-in is not profiled at all. When
    one is, the call is reported to it, and the return to the profile
    function in place afterwards, if any. *)
Definition sys_setprofile (caller : frame) (h : option profilefunc)
    : M (R := R) unit :=
  fun w =>
    match sys_profile w with
    | None => set_sys_profile h w
    | Some _ =>
        (notify caller "c_call" setprofile_builtin ;;;
         set_sys_profile h ;;;
         notify caller "c_return" setprofile_builtin) w
    end.

Definition run_action (a : action) : M (R := R) unit :=
  match a with
  | Notify f event arg => notify f event arg
  | SetProfile caller h => sys_setprofile caller (Foreign <$> h)
  end.

Fixpoint run_script (l : list action) : M (R := R) unit :=
  match l with
  | [] => ret tt
  | a :: l' => run_action a ;;; run_script l'
  end.

(** The call of [func] on [args] and [kwargs] *)
Definition call (func : pyfunction V) (args : list V)
    (kwargs : gmap string V) : M (R := R) V :=
  let e := fn_call func args kwargs in
  run_script (script e) ;;;
  (fun w => (outcome e, w)).

(** [out_path / name], as the string [print] and [write_text] get *)
Definition path_join (dir name : string) : string :=
  path_div R dir name.

Definition wrapper (func : pyfunction V) (output_dir : string)
    (args : list V) (kwargs : gmap string V) : M (R := R) V :=
  set_events [] ;;;
  start_ns <- perf_counter_ns ;;
  sys_setprofile wrapper_frame (Some Callback) ;;;
  result <-
    try_finally
      (call func args kwargs)
      (sys_setprofile wrapper_frame None ;;;
       end_ns <- perf_counter_ns ;;
       evs <- get events ;;
       match evs with
       | _ :: _ =>
           html <- call_process_events evs (fn___name__ func)
                     start_ns end_ns ;;
           let out_path := output_dir in
           fs_op (mkdir R out_path) ;;;
           let timestamp := strftime R in
           let report_file :=
             path_join out_path
               (fn___name__ func +:+ "_" +:+ timestamp +:+ ".html") in
           fs_op (write_text R report_file html) ;;;
           print ("[callprofiler] Report saved to " +:+ report_file)
       | [] => ret tt
       end) ;;
  ret result.

(** The body of the [finally] clause of [wrapper], by itself. *)
Definition finally_block (func : pyfunction V) (output_dir : string)
    (start_ns : Z) : M (R := R) unit :=
  sys_setprofile wrapper_frame None ;;;
  end_ns <- perf_counter_ns ;;
  evs <- get events ;;
  match evs with
  | _ :: _ =>
      html <- call_process_events evs (fn___name__ func)
                start_ns end_ns ;;
      let out_path := output_dir in
      fs_op (mkdir R out_path) ;;;
      let timestamp := strftime R in
      let report_file :=
        path_join out_path
          (fn___name__ func +:+ "_" +:+ timestamp +:+ ".html") in
      fs_op (write_text R report_file html) ;;;
      print ("[callprofiler] Report saved to " +:+ report_file)
  | [] => ret tt
  end.

(** [profile(func, output_dir=...)]; without [func] the decorator factory. *)
Definition profile (func : pyfunction V) (output_dir : string)
    : list V -> gmap string V -> M (R := R) V :=
  wrapper func output_dir.

Definition profile_with (output_dir : string)
    : pyfunction V -> list V -> gmap string V -> M (R := R) V :=
  fun f => profile f output_dir.

End Profile.

(** ** The reconstruction and aggregation engine

    Modelled from the spec: [process_events] is imported from the compiled
    module [callprofiler._callprofiler], whose source is not part of the
    Python package. The definitions of this module follow sections 3, 4.2
    and 4.3 of the specification: the Event and CallNode records, the
    stack-based [build_tree] and the post-order timing pass of [aggregate].
    A node of the forest is always closed (an open call is closed when the
    stream ends), so its [exited_at] is present. A Return closes the top
    frame whatever its kind and symbol. *)

Module Engine.

Inductive Kind : Type := Call | Return | NativeCall | NativeReturn.

Module Event.
(** Modelled from the spec: the Event record of section 3 (the compiled
    module's event type is not in the sources). *)
Record t : Type := {
  kind : Kind;
  symbol : string;
  origin_module : string;
  source_location : option (string * Z);
  timestamp : Z;
  is_external : bool;
  library_name : string
}.
End Event.

(** Modelled from the spec: the CallNode of section 3, for a closed call;
    [truncated] is the flag of section 4.2. *)
Inductive CallNode : Type := mkNode {
  symbol : string;
  library_name : string;
  is_external : bool;
  entered_at : Z;
  exited_at : Z;
  truncated : bool;
  children : list CallNode;
  self_time_ns : Z;
  total_time_ns : Z
}.

(** Modelled from the spec: the StructuralWarning taxonomy of section 7. *)
Inductive Warning : Type :=
| NameMismatch (opened returned : string)
| StrayReturn (symbol : string)
| TruncatedCall (symbol : string)
| ClampedSelfTime (symbol : string).

(** An open call: the originating event and the children closed so far. *)
Record Frame : Type := {
  origin : Event.t;
  buffer : list CallNode
}.

Record State : Type := {
  stack : list Frame;
  forest : list CallNode;
  warnings : list Warning;
  last_timestamp : option Z
}.

Definition initial : State :=
  {| stack := []; forest := []; warnings := []; last_timestamp := None |}.

(** Stamp [exited_at] on an open frame. *)
Definition close (f : Frame) (t : Z) (trunc : bool) : CallNode :=
  {| symbol := Event.symbol (origin f);
     library_name := Event.library_name (origin f);
     is_external := Event.is_external (origin f);
     entered_at := Event.timestamp (origin f);
     exited_at := t;
     truncated := trunc;
     children := buffer f;
     self_time_ns := 0;
     total_time_ns := 0 |}.

Definition adopt (f : Frame) (n : CallNode) : Frame :=
  {| origin := origin f; buffer := buffer f ++ [n] |}.

(** Modelled from the spec: one event of the reconstruction of section
    4.2. A Call pushes an open frame; a Return closes the top frame and
    hands the node to the frame below, or to the forest; a Return on the
    empty stack is dropped with a warning. *)
Definition step (st : State) (e : Event.t) : State :=
  match Event.kind e with
  | Call | NativeCall =>
      {| stack := {| origin := e; buffer := [] |} :: stack st;
         forest := forest st;
         warnings := warnings st;
         last_timestamp := Some (Event.timestamp e) |}
  | Return | NativeReturn =>
      match stack st with
      | [] =>
          {| stack := [];
             forest := forest st;
             warnings := warnings st ++ [StrayReturn (Event.symbol e)];
             last_timestamp := Some (Event.timestamp e) |}
      | top :: rest =>
          let n := close top (Event.timestamp e) false in
          let ws :=
            if String.eqb (Event.symbol (origin top)) (Event.symbol e)
            then []
            else [NameMismatch (Event.symbol (origin top)) (Event.symbol e)] in
          match rest with
          | [] =>
              {| stack := [];
                 forest := forest st ++ [n];
                 warnings := warnings st ++ ws;
                 last_timestamp := Some (Event.timestamp e) |}
          | parent :: rest' =>
              {| stack := adopt parent n :: rest';
                 forest := forest st;
                 warnings := warnings st ++ ws;
                 last_timestamp := Some (Event.timestamp e) |}
          end
      end
  end.

(** Modelled from the spec: the unterminated calls of section 4.2.
    Closing the frames left open when the stream ends, top first: each
    closed node goes into the frame below it, the last one into the
    forest. [carry] holds the node closed just before. *)
Fixpoint unwind (t : Z) (carry : list CallNode) (frames : list Frame)
    : list CallNode :=
  match frames with
  | [] => carry
  | f :: rest =>
      unwind t
        [close {| origin := origin f; buffer := buffer f ++ carry |} t true]
        rest
  end.

Definition finish (st : State) : list CallNode * list Warning :=
  let t := default 0 (last_timestamp st) in
  (forest st ++ unwind t [] (stack st),
   warnings st
     ++ map (fun f => TruncatedCall (Event.symbol (origin f))) (stack st)).

(** Modelled from the spec: [build_tree] of section 4.2, the missing first
    half of [process_events]. *)
Definition build_tree (events : list Event.t)
    : list CallNode * list Warning :=
  finish (fold_left step events initial).

Definition sum_total (l : list CallNode) : Z :=
  fold_right (fun c acc => total_time_ns c + acc) 0 l.

(** Modelled from the spec: the per-node timing pass of section 4.3,
    children before parent: [total = exited_at - entered_at] and
    [self = total - sum of the children's totals], clamped at zero with a
    warning. *)
Fixpoint annotate (n : CallNode) : CallNode * list Warning :=
  match n with
  | mkNode sym lib ext t_in t_out trunc cs _ _ =>
      let fix annotate_all (l : list CallNode)
          : list CallNode * list Warning :=
        match l with
        | [] => ([], [])
        | c :: l' =>
            let (c', w1) := annotate c in
            let (l'', w2) := annotate_all l' in
            (c' :: l'', w1 ++ w2)
        end in
      let (cs', ws) := annotate_all cs in
      let total := t_out - t_in in
      let self := total - sum_total cs' in
      if Z.ltb self 0
      then (mkNode sym lib ext t_in t_out trunc cs' 0 total,
            ws ++ [ClampedSelfTime sym])
      else (mkNode sym lib ext t_in t_out trunc cs' self total, ws)
  end.

Fixpoint annotate_all (l : list CallNode) : list CallNode * list Warning :=
  match l with
  | [] => ([], [])
  | c :: l' =>
      let (c', w1) := annotate c in
      let (l'', w2) := annotate_all l' in
      (c' :: l'', w1 ++ w2)
  end.

(** Depth-first pre-order traversal. *)
Fixpoint preorder (n : CallNode) : list CallNode :=
  n :: (fix go (l : list CallNode) : list CallNode :=
          match l with
          | [] => []
          | c :: l' => preorder c ++ go l'
          end) (children n).

Definition nodes (forest : list CallNode) : list CallNode :=
  flat_map preorder forest.

(** Modelled from the spec: the library rollup of section 4.3, self time
    and call count of the external nodes. *)
Definition rollup (forest : list CallNode) : gmap string (Z * nat) :=
  fold_left
    (fun m n =>
       if is_external n then
         let '(t, c) := default (0, 0%nat) (m !! library_name n) in
         <[library_name n := (t + self_time_ns n, S c)]> m
       else m)
    (nodes forest) ∅.

(** Modelled from the spec: [aggregate] of section 4.3, the missing second
    half of [process_events]. *)
Definition aggregate (forest : list CallNode)
    : list CallNode * gmap string (Z * nat) * list Warning :=
  let (forest', ws) := annotate_all forest in
  (forest', rollup forest', ws).

(** Modelled from the spec: the engine on a whole stream (data flow of
    section 2): the annotated forest, the library summary and all the
    warnings. *)
Definition process (events : list Event.t)
    : list CallNode * gmap string (Z * nat) * list Warning :=
  let (forest, ws1) := build_tree events in
  let '(forest', summary, ws2) := aggregate forest in
  (forest', summary, ws1 ++ ws2).

Definition call_ (s : string) (t : Z) : Event.t :=
  {| Event.kind := Call; Event.symbol := s; Event.origin_module := "";
     Event.source_location := None; Event.timestamp := t;
     Event.is_external := false; Event.library_name := "" |}.
Definition return_ (s : string) (t : Z) : Event.t :=
  {| Event.kind := Return; Event.symbol := s; Event.origin_module := "";
     Event.source_location := None; Event.timestamp := t;
     Event.is_external := false; Event.library_name := "" |}.

End Engine.

(** ** A concrete runtime, for running the definitions *)

Definition linux : Platform :=
  posix_platform
    (<["stdlib" := "/usr/lib/python3.12"]>
       (<["platstdlib" := "/usr/lib/python3.12/lib-dynload"]> ∅))
    "/usr".

Inductive fs_node : Type :=
| Dir
| File (content : string).

(** [Path(p).mkdir(parents=True, exist_ok=True)]: an existing directory is
    accepted, an existing regular file is not. *)
Definition simple_mkdir (p : string) (fs : gmap string fs_node)
    : result (gmap string fs_node) :=
  match fs !! p with
  | Some (File _) => Raise (PyExc "FileExistsError")
  | Some Dir => Ok fs
  | None => Ok (<[p := Dir]> fs)
  end.

Definition simple_write_text (p content : string) (fs : gmap string fs_node)
    : result (gmap string fs_node) :=
  match fs !! p with
  | Some Dir => Raise (PyExc "IsADirectoryError")
  | _ => Ok (<[p := File content]> fs)
  end.

Definition demo_runtime (clock : nat -> Z) : Runtime :=
  {| platform := linux;
     perf_counter := clock;
     strftime := "20240101_120000";
     FS := gmap string fs_node;
     mkdir := simple_mkdir;
     write_text := simple_write_text;
     process_events := fun _ name _ _ => Ok ("<html>" +:+ name +:+ "</html>");
     path_div := Posix.path_div;
     print_error := fun _ _ => None |}.

(** A clock that advances by 10 ns between readings. *)
Definition ticking : nat -> Z := fun k => 1000 + 10 * Z.of_nat k.

Definition fresh_world {R : Runtime} (files : FS R) : World R :=
  {| sys_profile := None; perf_reads := 0; events := []; processed := [];
     fs := files; stdout := [] |}.

Definition frame_of (name file : string) (line : Z) (globals : gmap string pyval)
    : frame :=
  {| f_code := {| co_name := name; co_filename := file;
                  co_firstlineno := line |};
     f_globals := globals |}.

Definition py_none : pyobject :=
  {| attr___name__ := None; attr___module__ := None; str := "None" |}.

Definition builtin (name : string) (mod_ : pyval) : pyobject :=
  {| attr___name__ := Some name; attr___module__ := Some mod_;
     str := "<built-in function " +:+ name +:+ ">" |}.

Definition app_frame : frame :=
  frame_of "handler" "/home/u/app/main.py" 12 {[ "__name__" := PyStr "__main__" ]}.

Definition lib_frame : frame :=
  frame_of "get" "/home/u/venv/lib/python3.12/site-packages/requests/api.py" 62
    {[ "__name__" := PyStr "requests.api" ]}.

(** A traced function that calls into a library and a built-in, then
    returns 42. *)
Definition handler : pyfunction Z :=
  {| fn___name__ := "handler";
     fn_call := fun _ _ =>
       {| script := [Notify app_frame "call" py_none;
                     Notify lib_frame "call" py_none;
                     Notify lib_frame "c_call" (builtin "len" (PyStr "builtins"));
                     Notify lib_frame "c_return" (builtin "len" (PyStr "builtins"));
                     Notify lib_frame "return" py_none;
                     Notify app_frame "return" py_none];
          outcome := Ok 42 |} |}.

(** A traced function that raises after one call. *)
Definition failing : pyfunction Z :=
  {| fn___name__ := "failing";
     fn_call := fun _ _ =>
       {| script := [Notify app_frame "call" py_none;
                     Notify app_frame "return" py_none];
          outcome := Raise (PyExc "ValueError") |} |}.

(** A traced function under which the interpreter raises no notification. *)
Definition silent : pyfunction Z :=
  {| fn___name__ := "silent";
     fn_call := fun _ _ => {| script := []; outcome := Ok 7 |} |}.

(** Code run from a hidden directory of site-packages with no [__name__]
    among its globals. *)
Definition hidden_frame : frame :=
  frame_of "run" "/srv/venv/lib/python3.12/site-packages/.tools/run.py" 1 ∅.

Definition hidden : pyfunction Z :=
  {| fn___name__ := "hidden";
     fn_call := fun _ _ =>
       {| script := [Notify hidden_frame "call" py_none;
                     Notify hidden_frame "return" py_none];
          outcome := Ok 0 |} |}.

(** A traced function that calls a native helper whose [__module__] is the
    profiler's own module name. *)
Definition native_helper : pyfunction Z :=
  {| fn___name__ := "native_helper";
     fn_call := fun _ _ =>
       {| script := [Notify app_frame "c_call"
                       (builtin "helper" (PyStr "callprofiler.profiler"));
                     Notify app_frame "c_return"
                       (builtin "helper" (PyStr "callprofiler.profiler"))];
          outcome := Ok 0 |} |}.

(** The demo runtime's worlds, and a wrapped call in one of them. *)
Abbreviation DemoWorld := (World (demo_runtime ticking)).

Definition demo_world (files : gmap string fs_node) : DemoWorld :=
  fresh_world (R := demo_runtime ticking) files.

Definition demo_run (f : pyfunction Z) (files : gmap string fs_node)
    : result Z * DemoWorld :=
  profile (R := demo_runtime ticking) f ".profile" [] ∅ (demo_world files).

(** ** Predicates used in the statements *)

(** A list of integers in non-decreasing order. *)
Fixpoint nondecreasing (l : list Z) : Prop :=
  match l with
  | x :: (y :: _) as l' => x <= y /\ nondecreasing l'
  | _ => True
  end.

(** A clock that never goes back. *)
Definition monotone (clock : nat -> Z) : Prop :=
  forall i j : nat, (i <= j)%nat -> clock i <= clock j.

(** The records of [l] carry, in order, readings number [lo] or later and
    before [hi] of the clock, each reading later than the one before. *)
Fixpoint stamped (clock : nat -> Z) (lo hi : nat) (l : list event_record)
    : Prop :=
  match l with
  | [] => (lo <= hi)%nat
  | r :: l' =>
      exists k : nat,
        (lo <= k)%nat /\ timestamp_ns r = clock k /\ stamped clock (S k) hi l'
  end.

Definition begins_with_dot (s : string) : Prop :=
  exists s', s = String "."%char s'.

(** A name whose first dot-separated field is empty. *)
Definition unnamed (s : string) : Prop := s = "" \/ begins_with_dot s.

Definition python_level (ev : string) : Prop := ev = "call" \/ ev = "return".
Definition native_level (ev : string) : Prop := ev = "c_call" \/ ev = "c_return".

(** The four kinds of record. *)
Definition four_kinds (r : event_record) : Prop :=
  event r = "call" \/ event r = "return" \/
  event r = "c_call" \/ event r = "c_return".

(** [getattr(arg, "__name__", str(arg))] and
    [getattr(arg, "__module__", "") or ""], as the callback computes them. *)
Definition c_name_of (arg : pyobject) : string :=
  default (str arg) (attr___name__ arg).
Definition c_module_of (arg : pyobject) : string :=
  match default (PyStr "") (attr___module__ arg) with
  | PyStr s => s
  | PyNone => ""
  end.
Definition module_of (f : frame) : pyval :=
  default (PyStr "") (f_globals f !! "__name__").

(** [r] is the record the callback builds for a Python-level notification
    in frame [f] at time [ts]. *)
Definition python_record (P : Platform) (f : frame) (ev : string) (ts : Z)
    (r : event_record) : Prop :=
  python_level ev /\
  module_of f <> PyStr __name__ /\
  event r = ev /\
  func_name r = co_name (f_code f) /\
  module r = module_of f /\
  filename r = co_filename (f_code f) /\
  lineno r = co_firstlineno (f_code f) /\
  timestamp_ns r = ts /\
  is_external r = _is_external P (PyStr (co_filename (f_code f))) /\
  library_name r =
    if is_external r
    then _extract_library_name P (PyStr (co_filename (f_code f))) (module_of f)
    else "".

(** [r] is the record the callback builds for a native notification about
    the callee [arg] at time [ts]. *)
Definition native_record (arg : pyobject) (ev : string) (ts : Z)
    (r : event_record) : Prop :=
  native_level ev /\
  c_name_of arg <> "setprofile" /\
  event r = ev /\
  func_name r = c_name_of arg /\
  module r = PyStr (c_module_of arg) /\
  filename r = "" /\
  lineno r = 0 /\
  timestamp_ns r = ts /\
  is_external r = true /\
  library_name r =
    if PyStr.truthy (c_module_of arg)
    then PyStr.first (PyStr.split "."%char (c_module_of arg))
    else "builtins".

(** [r] was built from one of the notifications of [l]. *)
Definition recorded_from (P : Platform) (l : list action) (r : event_record)
    : Prop :=
  exists f ev arg ts,
    In (Notify f ev arg) l /\
    (python_record P f ev ts r \/ native_record arg ev ts r).

(** From [w] to [w'] only the clock and the [events] list moved: the
    records added come from the notifications of [l], in the order of the
    clock readings they carry. *)
Definition traced {R : Runtime} (l : list action) (w w' : World R) : Prop :=
  exists recs,
    events w' = events w ++ recs /\
    Forall (recorded_from (platform R) l) recs /\
    stamped (perf_counter R) (perf_reads w) (perf_reads w') recs /\
    processed w' = processed w /\
    fs w' = fs w /\
    stdout w' = stdout w.

(** The world after the traced call and after the whole wrapper. *)
Definition final {R : Runtime} {V : Type} (func : pyfunction V)
    (output_dir : string) (args : list V) (kwargs : gmap string V)
    (w : World R) : World R :=
  snd (wrapper func output_dir args kwargs w).

Definition returned {R : Runtime} {V : Type} (func : pyfunction V)
    (output_dir : string) (args : list V) (kwargs : gmap string V)
    (w : World R) : result V :=
  fst (wrapper func output_dir args kwargs w).

(** Where the report goes and what is printed about it. *)
Definition report_file (R : Runtime) (name output_dir : string) : string :=
  path_join (R := R) output_dir (name +:+ "_" +:+ strftime R +:+ ".html").

Definition report_line (R : Runtime) (name output_dir : string) : string :=
  "[callprofiler] Report saved to " +:+ report_file R name output_dir.

(** Report generation goes through for one call of [process_events], from
    the file system [files] and the output [out]: the call, [mkdir],
    [write_text] and [print] all succeed. *)
Definition report_ok (R : Runtime) (output_dir : string) (files : FS R)
    (out : list string) (call : list event_record * string * Z * Z) : Prop :=
  let '(evs, name, start_ns, end_ns) := call in
  exists html fs1 fs2,
    process_events R evs name start_ns end_ns = Ok html /\
    mkdir R output_dir files = Ok fs1 /\
    write_text R (report_file R name output_dir) html fs1 = Ok fs2 /\
    print_error R out (report_line R name output_dir) = None.

(** The degenerate inputs on which an external record gets an empty
    library name. *)
Definition nameless (P : Platform) (r : event_record) : Prop :=
  match module r with
  | PyStr (String _ _ as m) => begins_with_dot m
  | _ =>
      python_level (event r) /\
      exists comp,
        marker_loop P (filename r) _SITE_PACKAGES_MARKERS = Some comp /\
        unnamed comp
  end.

(** The directories [_STDLIB_PATHS] holds: the normalised [stdlib] and
    [platstdlib] entries of [sysconfig.get_paths()] that are set and not
    empty, and the normalised [sys.prefix]. *)
Definition stdlib_root (P : Platform) (sp : string) : Prop :=
  (exists key p,
     (key = "stdlib" \/ key = "platstdlib") /\
     get_paths P !! key = Some p /\ p <> "" /\ sp = normpath P p) \/
  sp = normpath P (sys_prefix P).

(** The four tests [_is_external] makes. The last one is a test on
    strings: the normalised name starts with the characters of the
    directory, whether or not a separator follows them. *)
Definition classified_external (P : Platform) (filename : pyval) : Prop :=
  filename = PyNone \/
  exists f,
    filename = PyStr f /\
    (PyStr.starts_with f "<" \/
     (exists marker,
        (marker = "site-packages" \/ marker = "dist-packages") /\
        PyStr.occurs_in marker (normpath P f)) \/
     (exists sp, stdlib_root P sp /\ PyStr.starts_with (normpath P f) sp)).

(** [path] is the directory [dir] or lies under it: what follows [dir] in
    [path] starts a new component. *)
Definition lies_under (sep : ascii) (dir path : string) : Prop :=
  path = dir \/
  (exists rest, path = dir +:+ String sep rest) \/
  (exists d rest, dir = d +:+ String sep "" /\ path = dir +:+ rest).

(** The four conditions with the last one read by directories: the
    normalised name lies under a stdlib, platstdlib or sys.prefix
    directory. *)
Definition claimed_external (P : Platform) (filename : pyval) : Prop :=
  filename = PyNone \/
  exists f,
    filename = PyStr f /\
    (PyStr.starts_with f "<" \/
     (exists marker,
        (marker = "site-packages" \/ marker = "dist-packages") /\
        PyStr.occurs_in marker (normpath P f)) \/
     (exists sp, stdlib_root P sp /\
                 lies_under (os_sep P) sp (normpath P f))).

Module EngineSpec.
Import Engine.

(** The nodes of [l] follow one another inside the window [lo, hi]. *)
Fixpoint chain (lo hi : Z) (l : list CallNode) : Prop :=
  match l with
  | [] => lo <= hi
  | n :: l' =>
      lo <= entered_at n /\ entered_at n <= exited_at n /\
      chain (exited_at n) hi l'
  end.

(** Every call lies inside its caller, after its elder siblings. *)
Inductive well_timed : CallNode -> Prop :=
| well_timed_node n :
    chain (entered_at n) (exited_at n) (children n) ->
    Forall well_timed (children n) ->
    well_timed n.

Fixpoint frames_ok (t : Z) (frames : list Frame) : Prop :=
  match frames with
  | [] => True
  | f :: rest =>
      chain (Event.timestamp (origin f)) t (buffer f) /\
      Forall well_timed (buffer f) /\
      frames_ok (Event.timestamp (origin f)) rest
  end.

Definition inv (t : Z) (st : State) : Prop :=
  frames_ok t (stack st) /\
  Forall well_timed (forest st) /\
  (stack st = [] \/ last_timestamp st = Some t).

Definition timestamps (events : list Event.t) : list Z :=
  map Event.timestamp events.

Definition span_sum (l : list CallNode) : Z :=
  fold_right (fun c acc => (exited_at c - entered_at c) + acc) 0 l.

(** Round-trip timing at one node. *)
Definition round_trip (n : CallNode) : Prop :=
  total_time_ns n = self_time_ns n + sum_total (children n).

(** The self time of [n] was clamped. *)
Definition clamped (ws : list Warning) (n : CallNode) : Prop :=
  self_time_ns n = 0 /\
  total_time_ns n < sum_total (children n) /\
  In (ClampedSelfTime (symbol n)) ws.

(** Self time is never negative: it closes the round trip, or it was
    clamped to zero and a warning says so. *)
Definition self_time_ok (ws : list Warning) (n : CallNode) : Prop :=
  0 <= self_time_ns n /\ (round_trip n \/ clamped ws n).

(** A caller that returns before its callee does: timestamps out of
    order. *)
Definition out_of_order : list Event.t :=
  [call_ "A" 0; call_ "B" 10; return_ "B" 100; return_ "A" 50].

(** The first scenario of the specification. *)
Definition nested_calls : list Event.t :=
  [call_ "A" 0; call_ "B" 10; return_ "B" 30; return_ "A" 50].

End EngineSpec.

(** ** Further predicates *)

(** The character [c] does not occur in [s]. *)
Fixpoint no_char (c : ascii) (s : string) : Prop :=
  match s with
  | EmptyString => True
  | String a s' => a <> c /\ no_char c s'
  end.

(** [s] is empty or opens with [c]: what may follow a field that [c]
    separates. *)
Definition opens_with (c : ascii) (s : string) : Prop :=
  s = "" \/ exists s', s = String c s'.

(** A module name that counts as false: [None] or the empty string. *)
Definition no_module (m : pyval) : Prop := m = PyNone \/ m = PyStr "".

(** The notifications the callback keeps: Python-level ones from outside
    the profiler's module, native ones about another callee than
    "setprofile". *)
Definition recordable (a : action) : bool :=
  match a with
  | Notify f ev arg =>
      (py_in ev ["call"; "return"]
       && negb (bool_decide (module_of f = PyStr __name__)))
      || (py_in ev ["c_call"; "c_return"]
          && negb (bool_decide (c_name_of arg = "setprofile")))
  | SetProfile _ _ => false
  end.

(** The kind and the function name a notification is recorded under. *)
Definition label (a : action) : string * string :=
  match a with
  | Notify f ev arg =>
      (ev, if py_in ev ["call"; "return"] then co_name (f_code f)
           else c_name_of arg)
  | SetProfile _ _ => ("", "")
  end.

Definition key (r : event_record) : string * string :=
  (event r, func_name r).

(** The traced code does not call [sys.setprofile] itself. *)
Definition only_notifications (l : list action) : Prop :=
  forall a, In a l -> exists f ev arg, a = Notify f ev arg.

(** A runtime whose compiled module refuses every event list. *)
Definition broken_engine_runtime : Runtime :=
  {| platform := linux;
     perf_counter := ticking;
     strftime := "20240101_120000";
     FS := gmap string fs_node;
     mkdir := simple_mkdir;
     write_text := simple_write_text;
     process_events := fun _ _ _ _ => Raise (PyExc "RuntimeError");
     path_div := Posix.path_div;
     print_error := fun _ _ => None |}.

(** A runtime whose standard output is closed. *)
Definition closed_stdout_runtime : Runtime :=
  {| platform := linux;
     perf_counter := ticking;
     strftime := "20240101_120000";
     FS := gmap string fs_node;
     mkdir := simple_mkdir;
     write_text := simple_write_text;
     process_events := fun _ name _ _ => Ok ("<html>" +:+ name +:+ "</html>");
     path_div := Posix.path_div;
     print_error := fun _ _ => Some (PyExc "ValueError") |}.

(** A native callee with neither [__name__] nor [__module__]. *)
Definition anonymous_callee : pyobject :=
  {| attr___name__ := None; attr___module__ := None;
     str := "<built-in method of an extension type>" |}.

(** * Facts *)

(** ** Strings *)

Module PyStrFacts.
Import PyStr.

Lemma startswith_spec s p : startswith s p = true <-> starts_with s p.
Proof.
  revert s; induction p as [|a p IH]; intros s; simpl.
  - split; [intros _; exists s; reflexivity | reflexivity].
  - destruct s as [|b s]; simpl.
    + split; [discriminate | intros [r Hr]; discriminate].
    + destruct (Ascii.eqb_spec a b) as [->|Hne]; simpl.
      * rewrite IH. split; intros [r Hr]; exists r; simpl in *; congruence.
      * split; [discriminate | intros [r Hr]; simpl in Hr; congruence].
Qed.

Lemma contains_spec m s : contains m s = true <-> occurs_in m s.
Proof.
  induction s as [|a s IH]; simpl.
  - rewrite orb_false_r, startswith_spec. split.
    + intros [r Hr]. exists EmptyString, r. exact Hr.
    + intros [l [r Hr]]. destruct l; simpl in Hr; [|discriminate].
      exists r; exact Hr.
  - rewrite orb_true_iff, startswith_spec, IH. split.
    + intros [[r Hr]|[l [r Hr]]].
      * exists EmptyString, r. exact Hr.
      * exists (String a l), r. simpl. congruence.
    + intros [l [r Hr]]. destruct l as [|b l]; simpl in Hr.
      * left. exists r. exact Hr.
      * right. exists l, r. congruence.
Qed.

(** The first field of a split is empty exactly for the empty string and
    for a string that opens with the separator. *)
Lemma first_split_empty c s :
  first (split c s) = EmptyString <->
  s = EmptyString \/ exists s', s = String c s'.
Proof.
  destruct s as [|a s]; simpl.
  - split; [left; reflexivity | reflexivity].
  - destruct (Ascii.eqb_spec a c) as [->|Hne]; simpl.
    + split; [right; eexists; reflexivity | reflexivity].
    + destruct (split c s); simpl;
        (split; [discriminate | intros [H|[s' H]]; congruence]).
Qed.


End PyStrFacts.

(** ** Classification *)

Section ClassificationFacts.

Variable P : Platform.

Lemma stdlib_paths_spec sp : In sp (_STDLIB_PATHS P) <-> stdlib_root P sp.
Proof.
  unfold _STDLIB_PATHS, _compute_stdlib_paths, stdlib_root. simpl.
  rewrite in_app_iff. simpl.
  destruct (get_paths P !! "stdlib") as [p1|] eqn:H1;
    destruct (get_paths P !! "platstdlib") as [p2|] eqn:H2;
    try destruct p1 as [|a1 p1]; try destruct p2 as [|a2 p2]; simpl;
    (split;
     [ intros [Hin | [Heq | []]];
       [ repeat (destruct Hin as [Hin | Hin]); try contradiction;
         left; eauto 10 using eq_sym
       | right; symmetry; exact Heq ]
     | intros [(key & p & [-> | ->] & Hk & Hne & ->) | ->];
       [ rewrite H1 in Hk; inversion Hk; subst; try congruence;
         left; simpl; tauto
       | rewrite H2 in Hk; inversion Hk; subst; try congruence;
         left; simpl; tauto
       | right; left; reflexivity ] ]).
Qed.

Lemma frozen_is_angle f :
  PyStr.startswith f _FROZEN_PREFIX || PyStr.startswith f "<"
  = PyStr.startswith f "<".
Proof.
  destruct f as [|a f]; [reflexivity|].
  unfold _FROZEN_PREFIX. cbn [PyStr.startswith].
  destruct (Ascii.eqb "<" a); cbn [andb orb]; [|reflexivity].
  apply orb_true_r.
Qed.

Lemma is_external_true (filename : pyval) :
  _is_external P filename = true <-> classified_external P filename.
Proof.
  unfold classified_external, _is_external. destruct filename as [|f].
  { split; [left; reflexivity | reflexivity]. }
  rewrite frozen_is_angle. cbv zeta.
  destruct (PyStr.startswith f "<") eqn:Hlt.
  { split; [|reflexivity]. intros _. right. exists f. split; [reflexivity|].
    left. apply PyStrFacts.startswith_spec. exact Hlt. }
  destruct (existsb _ _SITE_PACKAGES_MARKERS) eqn:Hm.
  { split; [|reflexivity]. intros _. right. exists f. split; [reflexivity|].
    right; left. apply existsb_exists in Hm. destruct Hm as (m & Hin & Hc).
    exists m. split; [simpl in Hin; intuition|].
    apply PyStrFacts.contains_spec. exact Hc. }
  destruct (existsb _ (_STDLIB_PATHS P)) eqn:Hs.
  { split; [|reflexivity]. intros _. right. exists f. split; [reflexivity|].
    right; right. apply existsb_exists in Hs. destruct Hs as (sp & Hin & Hc).
    exists sp. split; [apply stdlib_paths_spec; exact Hin|].
    apply PyStrFacts.startswith_spec. exact Hc. }
  split; [discriminate|].
  intros [Hn | (f' & Hf & [Hl | [(m & Hin & Hc) | (sp & Hin & Hc)]])];
    try discriminate; inversion Hf; subst f'; exfalso.
  - apply PyStrFacts.startswith_spec in Hl. congruence.
  - apply PyStrFacts.contains_spec in Hc.
    assert (existsb (fun marker => PyStr.contains marker (normpath P f))
              _SITE_PACKAGES_MARKERS = true) as Hx.
    { apply existsb_exists. exists m. split; [|exact Hc].
      simpl. destruct Hin as [-> | ->]; auto. }
    congruence.
  - apply PyStrFacts.startswith_spec in Hc.
    apply stdlib_paths_spec in Hin.
    assert (existsb (fun sp => PyStr.startswith (normpath P f) sp)
              (_STDLIB_PATHS P) = true) as Hx.
    { apply existsb_exists. exists sp. split; assumption. }
    congruence.
Qed.

(** What [_is_external] computes: it answers [True] exactly when the file
    name is [None], or starts with "<" (the "<frozen" prefix included), or
    its normalised form contains "site-packages" or "dist-packages", or
    the characters of its normalised form start with those of one of the
    stdlib, platstdlib or sys.prefix directories; it answers [False]
    otherwise, and equal file names get equal answers. *)
Lemma is_external_pure_lookup (filename : pyval) :
  (_is_external P filename = true <-> classified_external P filename) /\
  (_is_external P filename = false <-> ~ classified_external P filename) /\
  (forall again : pyval,
     again = filename -> _is_external P again = _is_external P filename).
Proof.
  split; [apply is_external_true|]. split.
  - rewrite <- is_external_true.
    destruct (_is_external P filename); split; congruence.
  - intros again ->. reflexivity.
Qed.

End ClassificationFacts.

(** ** Library names *)

Section LibraryNameFacts.

Variable P : Platform.

Lemma first_split_dot s :
  PyStr.first (PyStr.split "."%char s) = "" <-> unnamed s.
Proof. apply PyStrFacts.first_split_empty. Qed.

Lemma extract_library_name_empty (f : string) (m : pyval) :
  _extract_library_name P (PyStr f) m = "" <->
  match m with
  | PyStr (String _ _ as s) => begins_with_dot s
  | _ => exists comp,
           marker_loop P f _SITE_PACKAGES_MARKERS = Some comp /\
           unnamed comp
  end.
Proof.
  assert (match marker_loop P f _SITE_PACKAGES_MARKERS with
          | Some comp => PyStr.first (PyStr.split "."%char comp)
          | None => "<stdlib>"
          end = "" <->
          exists comp,
            marker_loop P f _SITE_PACKAGES_MARKERS = Some comp /\
            unnamed comp) as Hloop.
  { destruct (marker_loop P f _SITE_PACKAGES_MARKERS) as [comp|].
    - rewrite first_split_dot. split.
      + intros H. exists comp. split; [reflexivity | exact H].
      + intros (c & Hc & Hu). inversion Hc. subst. exact Hu.
    - split; [discriminate | intros (c & Hc & _); discriminate]. }
  destruct m as [|[|a s]]; unfold _extract_library_name; try exact Hloop.
  rewrite first_split_dot. unfold unnamed. split.
  - intros [H | H]; [discriminate | exact H].
  - intros H. right. exact H.
Qed.

End LibraryNameFacts.

(** ** The callback *)

Lemma py_in_python ev : py_in ev ["call"; "return"] = true <-> python_level ev.
Proof.
  unfold py_in, python_level. cbn [existsb].
  rewrite !orb_true_iff, !String.eqb_eq. intuition discriminate.
Qed.

Lemma py_in_native ev :
  py_in ev ["c_call"; "c_return"] = true <-> native_level ev.
Proof.
  unfold py_in, native_level. cbn [existsb].
  rewrite !orb_true_iff, !String.eqb_eq. intuition discriminate.
Qed.

Lemma python_not_native ev : python_level ev -> native_level ev -> False.
Proof. intros [-> | ->] [H | H]; discriminate. Qed.

Section CallbackFacts.

Context {R : Runtime}.

(** One invocation of the callback: it reads the clock once, never
    fails, leaves the hook alone and appends at most one record. *)
Lemma callback_effect (f : frame) (ev : string) (arg : pyobject)
    (w : World R) :
  let w' := snd (_profile_callback __name__ f ev arg w) in
  fst (_profile_callback __name__ f ev arg w) = Ok tt /\
  sys_profile w' = sys_profile w /\
  perf_reads w' = S (perf_reads w) /\
  processed w' = processed w /\ fs w' = fs w /\ stdout w' = stdout w /\
  (events w' = events w \/
   exists r,
     events w' = events w ++ [r] /\
     (python_record (platform R) f ev (perf_counter R (perf_reads w)) r \/
      native_record arg ev (perf_counter R (perf_reads w)) r)).
Proof.
  unfold _profile_callback, bind, perf_counter_ns. cbv zeta.
  cbn [fst snd].
  destruct (py_in ev ["call"; "return"]) eqn:Hpy.
  - apply py_in_python in Hpy.
    fold (module_of f).
    destruct (bool_decide (module_of f = PyStr __name__)) eqn:Hmod.
    + cbn. tauto.
    + apply bool_decide_eq_false in Hmod.
      cbn [ret events_append set_events fst snd sys_profile perf_reads
             events processed fs stdout].
      repeat (split; [reflexivity|]).
      right. eexists. split; [reflexivity|]. left.
      unfold python_record.
      cbn [event func_name module filename lineno timestamp_ns
             is_external library_name].
      repeat (split; [first [assumption | reflexivity]|]). reflexivity.
  - destruct (py_in ev ["c_call"; "c_return"]) eqn:Hc.
    + apply py_in_native in Hc.
      fold (c_name_of arg). fold (c_module_of arg).
      destruct (bool_decide (c_name_of arg = "setprofile")) eqn:Hname.
      * cbn. tauto.
      * apply bool_decide_eq_false in Hname.
        cbn [ret events_append set_events fst snd sys_profile perf_reads
               events processed fs stdout].
        repeat (split; [reflexivity|]).
        right. eexists. split; [reflexivity|]. right.
        unfold native_record.
        cbn [event func_name module filename lineno timestamp_ns
               is_external library_name].
        repeat (split; [first [assumption | reflexivity]|]). reflexivity.
    + cbn. tauto.
Qed.

End CallbackFacts.

(** ** Clock readings along the event list *)

Section Stamps.

Variable clock : nat -> Z.

Lemma stamped_app lo mid hi l1 l2 :
  stamped clock lo mid l1 -> stamped clock mid hi l2 ->
  stamped clock lo hi (l1 ++ l2).
Proof.
  revert lo. induction l1 as [|r l1 IH]; intros lo; simpl.
  - intros Hle H2. destruct l2 as [|r2 l2]; simpl in *.
    + lia.
    + destruct H2 as (k & Hk & Ht & Hl). exists k. split; [lia | auto].
  - intros (k & Hk & Ht & Hl) H2. exists k. eauto.
Qed.

Lemma stamped_one lo r :
  timestamp_ns r = clock lo -> stamped clock lo (S lo) [r].
Proof. intros H. exists lo. simpl. auto. Qed.

Hypothesis clock_monotone : monotone clock.

Lemma stamped_lower_bound lo hi l :
  stamped clock lo hi l -> Forall (fun r => clock lo <= timestamp_ns r) l.
Proof.
  revert lo. induction l as [|r l IH]; intros lo; simpl; [constructor|].
  intros (k & Hk & Ht & Hl). constructor.
  - rewrite Ht. apply clock_monotone. exact Hk.
  - apply IH in Hl. eapply Forall_impl; [exact Hl|].
    intros r' Hr'. cbn beta in Hr'.
    pose proof (clock_monotone lo (S k)). lia.
Qed.

Lemma stamped_nondecreasing lo hi l :
  stamped clock lo hi l -> nondecreasing (map timestamp_ns l).
Proof.
  revert lo. induction l as [|r l IH]; intros lo; [simpl; auto|].
  intros (k & Hk & Ht & Hl).
  destruct l as [|r' l]; [simpl; auto|].
  change (timestamp_ns r <= timestamp_ns r' /\
          nondecreasing (map timestamp_ns (r' :: l))).
  split; [|eapply IH; exact Hl].
  apply stamped_lower_bound in Hl. inversion Hl; subst.
  pose proof (clock_monotone k (S k)). lia.
Qed.

End Stamps.

(** ** The traced call *)

Section TraceFacts.

Context {R : Runtime}.

Lemma traced_refl l (w : World R) : traced l w w.
Proof.
  exists []. rewrite app_nil_r. simpl. repeat split; auto.
Qed.

Lemma traced_trans l (w1 w2 w3 : World R) :
  traced l w1 w2 -> traced l w2 w3 -> traced l w1 w3.
Proof.
  intros (r1 & He1 & Hf1 & Hs1 & Hp1 & Hfs1 & Ho1)
         (r2 & He2 & Hf2 & Hs2 & Hp2 & Hfs2 & Ho2).
  exists (r1 ++ r2). repeat split; try congruence.
  - rewrite He2, He1, app_assoc. reflexivity.
  - apply Forall_app. split; assumption.
  - eapply stamped_app; eassumption.
Qed.

(** A world that differs from [w] by one more reading of the clock. *)
Lemma traced_tick l (w w' : World R) :
  events w' = events w -> perf_reads w' = S (perf_reads w) ->
  processed w' = processed w -> fs w' = fs w -> stdout w' = stdout w ->
  traced l w w'.
Proof.
  intros He Hr Hp Hf Ho. exists []. rewrite app_nil_r.
  repeat split; auto. simpl. lia.
Qed.

Lemma notify_effect l f ev arg (w : World R) :
  In (Notify f ev arg) l ->
  fst (notify f ev arg w) = Ok tt /\
  sys_profile (snd (notify f ev arg w)) = sys_profile w /\
  traced l w (snd (notify f ev arg w)).
Proof.
  intros Hin. unfold notify.
  destruct (sys_profile w) as [[|id]|] eqn:Hh;
    try (cbn [fst snd]; split; [reflexivity|]; split; [exact Hh|];
         apply traced_refl).
  destruct (callback_effect f ev arg w)
    as (Hok & Hsp & Hreads & Hp & Hfs & Ho & Hev).
  split; [exact Hok|]. split; [congruence|].
  destruct Hev as [Hev | (r & Hev & Hr)].
  - apply traced_tick; assumption.
  - exists [r]. repeat split; try assumption.
    + constructor; [|constructor].
      exists f, ev, arg, (perf_counter R (perf_reads w)). auto.
    + rewrite Hreads. apply stamped_one.
      destruct Hr as [Hr | Hr]; apply Hr.
Qed.

(** The notifications about [sys.setprofile] itself add no record. *)
Lemma notify_setprofile_effect l caller ev (w : World R) :
  native_level ev ->
  fst (notify caller ev setprofile_builtin w) = Ok tt /\
  sys_profile (snd (notify caller ev setprofile_builtin w)) = sys_profile w /\
  traced l w (snd (notify caller ev setprofile_builtin w)).
Proof.
  intros Hnat. unfold notify.
  destruct (sys_profile w) as [[|id]|] eqn:Hh;
    try (cbn [fst snd]; split; [reflexivity|]; split; [exact Hh|];
         apply traced_refl).
  destruct (callback_effect caller ev setprofile_builtin w)
    as (Hok & Hsp & Hreads & Hp & Hfs & Ho & Hev).
  split; [exact Hok|]. split; [congruence|].
  destruct Hev as [Hev | (r & Hev & [Hr | Hr])].
  - apply traced_tick; assumption.
  - exfalso. destruct Hr as (Hpy & _).
    eapply python_not_native; eassumption.
  - exfalso. destruct Hr as (_ & Hname & _). apply Hname. reflexivity.
Qed.

Lemma bind_ok {A B} (m : M A) (k : A -> M B) (w w1 : World R) (a : A) :
  m w = (Ok a, w1) -> bind m k w = k a w1.
Proof. intros H. unfold bind. rewrite H. reflexivity. Qed.

Lemma run_pair {A} (m : M A) (w : World R) (a : result A) :
  fst (m w) = a -> m w = (a, snd (m w)).
Proof. intros <-. apply surjective_pairing. Qed.

Lemma sys_setprofile_effect l caller h (w : World R) :
  fst (sys_setprofile caller h w) = Ok tt /\
  sys_profile (snd (sys_setprofile caller h w)) = h /\
  traced l w (snd (sys_setprofile caller h w)).
Proof.
  unfold sys_setprofile. destruct (sys_profile w) as [old|] eqn:Hold.
  2:{ cbn. split; [reflexivity|]. split; [reflexivity|].
      exists []. rewrite app_nil_r. cbn. repeat split; auto. }
  destruct (notify_setprofile_effect l caller "c_call" w)
    as (Hok1 & Hsp1 & Ht1); [left; reflexivity|].
  rewrite (bind_ok _ _ _ _ _ (run_pair _ _ _ Hok1)).
  set (w1 := snd (notify caller "c_call" setprofile_builtin w)) in *.
  set (w2 := {| sys_profile := h; perf_reads := perf_reads w1;
                events := events w1; processed := processed w1;
                fs := fs w1; stdout := stdout w1 |}).
  change (bind (set_sys_profile h) _ w1)
    with (notify caller "c_return" setprofile_builtin w2).
  destruct (notify_setprofile_effect l caller "c_return" w2)
    as (Hok2 & Hsp2 & Ht2); [right; reflexivity|].
  split; [exact Hok2|]. split; [rewrite Hsp2; reflexivity|].
  eapply traced_trans; [exact Ht1|].
  eapply traced_trans; [|exact Ht2].
  exists []. rewrite app_nil_r. subst w2. cbn.
  repeat split; auto.
Qed.

Lemma sys_setprofile_events caller h (w : World R) :
  events (snd (sys_setprofile caller h w)) = events w /\
  sys_profile (snd (sys_setprofile caller h w)) = h /\
  (perf_reads w <= perf_reads (snd (sys_setprofile caller h w)))%nat /\
  processed (snd (sys_setprofile caller h w)) = processed w /\
  fs (snd (sys_setprofile caller h w)) = fs w /\
  stdout (snd (sys_setprofile caller h w)) = stdout w.
Proof.
  destruct (sys_setprofile_effect [] caller h w)
    as (_ & Hsp & (recs & Hev & Hrecs & Hst & Hp & Hfs & Ho)).
  assert (recs = []) as ->.
  { destruct recs as [|x recs]; [reflexivity|].
    inversion Hrecs as [|? ? (f & ev & arg & ts & [] & _)]. }
  rewrite app_nil_r in Hev. cbn in Hst. auto 10.
Qed.

Lemma run_action_effect l a (w : World R) :
  In a l ->
  fst (run_action a w) = Ok tt /\ traced l w (snd (run_action a w)).
Proof.
  intros Hin. destruct a as [f ev arg | caller h]; cbn [run_action].
  - destruct (notify_effect l f ev arg w Hin) as (H1 & _ & H3). auto.
  - destruct (sys_setprofile_effect l caller (Foreign <$> h) w)
      as (H1 & _ & H3). auto.
Qed.

Lemma run_script_effect l s (w : World R) :
  (forall a, In a s -> In a l) ->
  fst (run_script s w) = Ok tt /\ traced l w (snd (run_script s w)).
Proof.
  revert w. induction s as [|a s IH]; intros w Hin.
  - cbn. split; [reflexivity | apply traced_refl].
  - cbn [run_script]. unfold bind.
    destruct (run_action_effect l a w) as (Hok & Ht).
    { apply Hin. left. reflexivity. }
    destruct (run_action a w) as [r1 w1]. cbn [fst snd] in *. subst r1.
    destruct (IH w1) as (Hok2 & Ht2).
    { intros b Hb. apply Hin. right. exact Hb. }
    split; [exact Hok2|]. eapply traced_trans; eassumption.
Qed.

Context {V : Type}.

Lemma call_effect (func : pyfunction V) args kwargs (w : World R) :
  fst (call func args kwargs w) = outcome (fn_call func args kwargs) /\
  traced (script (fn_call func args kwargs)) w
    (snd (call func args kwargs w)).
Proof.
  unfold call, bind.
  destruct (run_script_effect (script (fn_call func args kwargs))
              (script (fn_call func args kwargs)) w) as (Hok & Ht); [auto|].
  destruct (run_script _ w) as [r1 w1]. cbn [fst snd] in *. subst r1.
  cbn. auto.
Qed.

End TraceFacts.

(** ** The wrapper *)

Section WrapperFacts.

Context {R : Runtime} {V : Type}.
Variables (func : pyfunction V) (output_dir : string).

Lemma wrapper_unfold args kwargs :
  wrapper (R := R) func output_dir args kwargs =
  (set_events [] ;;;
   start_ns <- perf_counter_ns ;;
   sys_setprofile wrapper_frame (Some Callback) ;;;
   result <- try_finally (call func args kwargs)
               (finally_block func output_dir start_ns) ;;
   ret result).
Proof. reflexivity. Qed.

(** The [finally] clause, outcome by outcome. *)
Lemma finally_cases start_ns (w : World R) :
  let r := fst (finally_block func output_dir start_ns w) in
  let w' := snd (finally_block func output_dir start_ns w) in
  let name := fn___name__ func in
  exists k : nat,
    (perf_reads w <= k)%nat /\
    sys_profile w' = None /\
    events w' = events w /\
    match events w with
    | [] =>
        r = Ok tt /\ processed w' = processed w /\ fs w' = fs w /\
        stdout w' = stdout w
    | _ :: _ =>
        processed w'
        = processed w ++ [(events w, name, start_ns, perf_counter R k)] /\
        match process_events R (events w) name start_ns (perf_counter R k)
        with
        | Raise ex => r = Raise ex /\ fs w' = fs w /\ stdout w' = stdout w
        | Ok html =>
            match mkdir R output_dir (fs w) with
            | Raise ex => r = Raise ex /\ fs w' = fs w /\ stdout w' = stdout w
            | Ok fs1 =>
                match write_text R (report_file R name output_dir) html fs1
                with
                | Raise ex =>
                    r = Raise ex /\ fs w' = fs1 /\ stdout w' = stdout w
                | Ok fs2 =>
                    match print_error R (stdout w)
                            (report_line R name output_dir) with
                    | Some ex =>
                        r = Raise ex /\ fs w' = fs2 /\ stdout w' = stdout w
                    | None =>
                        r = Ok tt /\ fs w' = fs2 /\
                        stdout w'
                        = stdout w ++ [report_line R name output_dir]
                    end
                end
            end
        end
    end.
Proof.
  cbv zeta. unfold finally_block, report_line, report_file.
  destruct (sys_setprofile_effect [] wrapper_frame None w) as (Hok & _).
  destruct (sys_setprofile_events wrapper_frame None w)
    as (Hev & Hsp & Hreads & Hp & Hfs & Ho).
  rewrite (bind_ok _ _ _ _ _ (run_pair _ _ _ Hok)).
  set (w1 := snd (sys_setprofile wrapper_frame None w)) in *.
  exists (perf_reads w1). split; [exact Hreads|].
  unfold bind, perf_counter_ns, get, call_process_events, fs_op, print, ret.
  cbv beta iota zeta. cbn [events fs].
  rewrite <- Hev, <- Hp, <- Hfs, <- Ho.
  destruct (events w1) as [|x evs] eqn:Hevs.
  - cbn [fst snd sys_profile events processed fs stdout]. auto 10.
  - destruct (process_events R (x :: evs) (fn___name__ func) start_ns
                (perf_counter R (perf_reads w1))) as [html|e] eqn:Hpe.
    2:{ cbn [fst snd sys_profile events processed fs stdout]. auto 10. }
    cbn [fs sys_profile perf_reads events processed stdout].
    destruct (mkdir R output_dir (fs w1)) as [fs1|e] eqn:Hmk.
    2:{ cbn [fst snd sys_profile events processed fs stdout]. auto 10. }
    cbn [fs sys_profile perf_reads events processed stdout].
    destruct (write_text R _ html fs1) as [fs2|e] eqn:Hwr.
    2:{ cbn [fst snd sys_profile events processed fs stdout]. auto 10. }
    cbn [fs sys_profile perf_reads events processed stdout].
    destruct (print_error R (stdout w1) _) as [e|] eqn:Hpr;
      cbn [fst snd sys_profile events processed fs stdout]; auto 10.
Qed.

(** What the [finally] clause does to the world it starts from. *)
Lemma finally_effect start_ns (w : World R) :
  let r := fst (finally_block func output_dir start_ns w) in
  let w' := snd (finally_block func output_dir start_ns w) in
  sys_profile w' = None /\
  events w' = events w /\
  (events w = [] ->
   r = Ok tt /\ processed w' = processed w /\ fs w' = fs w /\
   stdout w' = stdout w) /\
  ((forall evs nm s e,
      processed w' = processed w ++ [(evs, nm, s, e)] ->
      report_ok R output_dir (fs w) (stdout w) (evs, nm, s, e)) ->
   r = Ok tt).
Proof.
  cbv zeta.
  destruct (finally_cases start_ns w) as (k & _ & Hsp & Hev & Hcases).
  split; [exact Hsp|]. split; [exact Hev|].
  destruct (events w) as [|x evs].
  - split; [intros _; exact Hcases | intros _; apply Hcases].
  - split; [discriminate|]. intros Hrep.
    destruct Hcases as (Hlog & Hcases).
    destruct (Hrep _ _ _ _ Hlog) as (html & fs1 & fs2 & Hpe & Hmk & Hwr & Hpr).
    rewrite Hpe, Hmk, Hwr, Hpr in Hcases. apply Hcases.
Qed.

Lemma try_finally_run {A} (body : M A) (fin : M unit) (w : World R) :
  try_finally body fin w =
  (match fst (fin (snd (body w))) with
   | Ok _ => fst (body w)
   | Raise e => Raise e
   end, snd (fin (snd (body w)))).
Proof.
  unfold try_finally. destruct (body w) as [r w1]. cbn [fst snd].
  destruct (fin w1) as [[u|e] w2]; reflexivity.
Qed.

Lemma bind_ret_run {A} (m : M A) (w : World R) :
  bind m (fun a => ret a) w = m w.
Proof. unfold bind, ret. destruct (m w) as [[a|e] w1]; reflexivity. Qed.

(** The whole wrapper, from the world it is called in. *)
Lemma wrapper_anatomy args kwargs (w : World R) :
  let e := fn_call func args kwargs in
  let w' := final func output_dir args kwargs w in
  let r := returned func output_dir args kwargs w in
  exists hi,
    Forall (recorded_from (platform R) (script e)) (events w') /\
    stamped (perf_counter R) (S (perf_reads w)) hi (events w') /\
    sys_profile w' = None /\
    (events w' = [] ->
     r = outcome e /\ processed w' = processed w /\ fs w' = fs w /\
     stdout w' = stdout w) /\
    ((forall evs nm s t,
        processed w' = processed w ++ [(evs, nm, s, t)] ->
        report_ok R output_dir (fs w) (stdout w) (evs, nm, s, t)) ->
     r = outcome e).
Proof.
  intros e w' r. subst w' r. unfold final, returned.
  rewrite wrapper_unfold.
  set (w0 := {| sys_profile := sys_profile w; perf_reads := perf_reads w;
                events := []; processed := processed w;
                fs := fs w; stdout := stdout w |}).
  set (w1 := {| sys_profile := sys_profile w0;
                perf_reads := S (perf_reads w0);
                events := events w0; processed := processed w0;
                fs := fs w0; stdout := stdout w0 |}).
  set (start_ns := perf_counter R (perf_reads w0)).
  change ((set_events [] ;;;
           start_ns <- perf_counter_ns ;;
           sys_setprofile wrapper_frame (Some Callback) ;;;
           result <- try_finally (call func args kwargs)
                       (finally_block func output_dir start_ns) ;;
           ret result) w)
    with ((sys_setprofile wrapper_frame (Some Callback) ;;;
           result <- try_finally (call func args kwargs)
                       (finally_block func output_dir start_ns) ;;
           ret result) w1).
  destruct (sys_setprofile_effect (script e) wrapper_frame (Some Callback) w1)
    as (Hok & _ & Ht1).
  rewrite (bind_ok _ _ _ _ _ (run_pair _ _ _ Hok)).
  set (w2 := snd (sys_setprofile wrapper_frame (Some Callback) w1)) in *.
  rewrite bind_ret_run, try_finally_run. cbn [fst snd].
  destruct (call_effect func args kwargs w2) as (Hout & Ht2).
  fold e in Ht2, Hout.
  set (w3 := snd (call func args kwargs w2)) in *.
  rewrite Hout.
  destruct (finally_effect start_ns w3) as (Hsp & Hev & Hnil & Hrep).
  set (w4 := snd (finally_block func output_dir start_ns w3)) in *.
  destruct (traced_trans _ _ _ _ Ht1 Ht2)
    as (recs & Hrecs & Hfrom & Hst & Hp & Hfs & Ho).
  change (events w1) with (@nil event_record) in Hrecs.
  rewrite app_nil_l in Hrecs.
  change (perf_reads w1) with (S (perf_reads w)) in Hst.
  change (processed w1) with (processed w) in Hp.
  change (fs w1) with (fs w) in Hfs.
  change (stdout w1) with (stdout w) in Ho.
  exists (perf_reads w3).
  rewrite Hev, Hrecs.
  split; [exact Hfrom|]. split; [exact Hst|]. split; [exact Hsp|]. split.
  - intros ->. destruct (Hnil Hrecs) as (Hr & Hp' & Hfs' & Ho').
    rewrite Hr. repeat split; congruence.
  - intros Hsucc. rewrite Hp, Hfs, Ho in Hrep. rewrite (Hrep Hsucc).
    reflexivity.
Qed.

End WrapperFacts.

(** ** Properties of the recorded events *)

Section RecordedEvents.

Context {R : Runtime} {V : Type}.
Variables (func : pyfunction V) (output_dir : string).
Variables (args : list V) (kwargs : gmap string V).

(** Whatever holds of every record the callback can build holds of the
    whole list the wrapper ends with. *)
Lemma final_events_Forall (Q : event_record -> Prop) (w : World R) :
  (forall f ev arg ts r,
     In (Notify f ev arg) (script (fn_call func args kwargs)) ->
     python_record (platform R) f ev ts r \/ native_record arg ev ts r ->
     Q r) ->
  Forall Q (events (final func output_dir args kwargs w)).
Proof.
  intros HQ.
  destruct (wrapper_anatomy func output_dir args kwargs w)
    as (hi & Hfrom & _).
  eapply Forall_impl; [exact Hfrom|].
  intros r (f & ev & arg & ts & Hin & Hr). eapply HQ; eassumption.
Qed.

(** C1. On every exit path of the wrapper the profiling hook is
    uninstalled: whatever hook the thread started with, whatever the
    traced code did to it, whether the traced function returned or raised,
    and whether report generation succeeded or not, no profile function
    is installed once the wrapper is left. *)
Theorem hook_uninstalled_on_every_exit (w : World R) :
  sys_profile (final func output_dir args kwargs w) = None.
Proof.
  destruct (wrapper_anatomy func output_dir args kwargs w)
    as (hi & _ & _ & Hsp & _).
  exact Hsp.
Qed.

(** C5. Every record the callback appends during a traced call has one
    of exactly four kinds: "call", "return", "c_call", "c_return". *)
Theorem recorded_kinds (w : World R) :
  Forall four_kinds (events (final func output_dir args kwargs w)).
Proof.
  apply final_events_Forall.
  intros f ev arg ts r _ [Hr | Hr].
  - destruct Hr as (Hlev & _ & Hev & _). unfold four_kinds. rewrite Hev.
    destruct Hlev; auto.
  - destruct Hr as (Hlev & _ & Hev & _). unfold four_kinds. rewrite Hev.
    destruct Hlev; auto.
Qed.

(** C6. A native record (c_call, c_return) has no source location: its
    filename is empty and its line number 0. A Python-level record (call,
    return) carries the filename and first line number of the code
    object of the frame it was notified for. *)
Theorem source_location_of_records (w : World R) :
  Forall
    (fun r =>
       (native_level (event r) -> filename r = "" /\ lineno r = 0) /\
       (python_level (event r) ->
        exists f arg,
          In (Notify f (event r) arg) (script (fn_call func args kwargs)) /\
          filename r = co_filename (f_code f) /\
          lineno r = co_firstlineno (f_code f)))
    (events (final func output_dir args kwargs w)).
Proof.
  apply final_events_Forall.
  intros f ev arg ts r Hin [Hr | Hr].
  - destruct Hr as (Hlev & _ & Hev & _ & _ & Hfile & Hline & _).
    rewrite Hev. split.
    + intros Hnat. exfalso. eapply python_not_native; eassumption.
    + intros _. exists f, arg. auto.
  - destruct Hr as (Hlev & _ & Hev & _ & _ & Hfile & Hline & _).
    rewrite Hev. split.
    + intros _. auto.
    + intros Hpy. exfalso. eapply python_not_native; eassumption.
Qed.

(** C7. When the clock never goes back, the records of one traced call
    are in non-decreasing order of timestamp: every timestamp is a reading
    of the one clock [perf_counter], and the records follow one another in
    the order of the readings they carry. *)
Theorem timestamps_nondecreasing (w : World R) :
  monotone (perf_counter R) ->
  nondecreasing
    (map timestamp_ns (events (final func output_dir args kwargs w))) /\
  exists hi,
    stamped (perf_counter R) (S (perf_reads w)) hi
      (events (final func output_dir args kwargs w)).
Proof.
  intros Hmono.
  destruct (wrapper_anatomy func output_dir args kwargs w)
    as (hi & _ & Hst & _).
  split; [|exists hi; exact Hst].
  eapply stamped_nondecreasing; eassumption.
Qed.

(** C8. Zero events are not an error. The engine turns the empty stream
    into the empty forest, with no library bucket and no warning; and a
    traced call that captured no event makes the wrapper skip event
    processing and the report (no call of [process_events], no change of
    the file system, nothing printed) and hand back what the traced
    function produced. *)
Theorem zero_events (w : World R) :
  events (final func output_dir args kwargs w) = [] ->
  Engine.build_tree [] = ([], []) /\
  Engine.process [] = ([], ∅, []) /\
  returned func output_dir args kwargs w
    = outcome (fn_call func args kwargs) /\
  processed (final func output_dir args kwargs w) = processed w /\
  fs (final func output_dir args kwargs w) = fs w /\
  stdout (final func output_dir args kwargs w) = stdout w.
Proof.
  intros Hnil.
  destruct (wrapper_anatomy func output_dir args kwargs w)
    as (hi & _ & _ & _ & Hempty & _).
  split; [reflexivity|]. split; [reflexivity|].
  apply Hempty. exact Hnil.
Qed.

(** C9, as amended. The callback does not record the profiler's own
    frames: no Python-level record (call, return) has the profiler
    module's [__name__] as its module, and no native record (c_call,
    c_return) is about a callee named "setprofile"; on a Python-level
    notification from the profiler's module, and on a native one about
    "setprofile", the callback returns with the event list as it was. *)
Theorem own_frames_skipped (w : World R) :
  Forall
    (fun r =>
       (python_level (event r) -> module r <> PyStr __name__) /\
       (native_level (event r) -> func_name r <> "setprofile"))
    (events (final func output_dir args kwargs w)) /\
  (forall f ev arg (w0 : World R),
     (python_level ev /\ module_of f = PyStr __name__) \/
     (native_level ev /\ c_name_of arg = "setprofile") ->
     events (snd (_profile_callback __name__ f ev arg w0)) = events w0).
Proof.
  split.
  - apply final_events_Forall.
    intros f ev arg ts r _ [Hr | Hr].
    + destruct Hr as (Hlev & Hmod & Hev & _ & Hm & _). rewrite Hev, Hm.
      split; [intros _; exact Hmod|].
      intros Hnat. exfalso. eapply python_not_native; eassumption.
    + destruct Hr as (Hlev & Hname & Hev & Hfn & _). rewrite Hev, Hfn.
      split; [|intros _; exact Hname].
      intros Hpy. exfalso. eapply python_not_native; eassumption.
  - intros f ev arg w0 Hown.
    destruct (callback_effect f ev arg w0)
      as (_ & _ & _ & _ & _ & _ & [Hsame | (r & _ & Hr)]);
      [exact Hsame|].
    exfalso.
    destruct Hr as [(Hpy & Hmod & _) | (Hnat & Hname & _)];
      destruct Hown as [(Hpy' & Hmod') | (Hnat' & Hname')];
      try contradiction;
      eapply python_not_native; eassumption.
Qed.


(** Which records have an empty library name. A record that is not
    external has the empty library name. An external record has a
    non-empty library name except on the degenerate inputs of [nameless]:
    a module name that begins with a dot, or, for a Python-level record
    without module name, a file name whose component after the
    site-packages marker is empty or begins with a dot. *)
Lemma library_name_of_records (w : World R) :
  Forall
    (fun r =>
       (is_external r = false -> library_name r = "") /\
       (is_external r = true ->
        (library_name r = "" <-> nameless (platform R) r)))
    (events (final func output_dir args kwargs w)).
Proof.
  apply final_events_Forall.
  intros f ev arg ts r _ [Hr | Hr].
  - destruct Hr as (Hlev & _ & Hev & _ & Hm & Hfile & _ & _ & _ & Hlib).
    split; intros Hext; rewrite Hext in Hlib; [exact Hlib|].
    rewrite Hlib, extract_library_name_empty.
    unfold nameless. rewrite Hm, Hfile, Hev.
    destruct (module_of f) as [|[|a s]]; try reflexivity; tauto.
  - destruct Hr as (Hlev & _ & Hev & _ & Hm & _ & _ & _ & Hext & Hlib).
    split; intros Hext'; [congruence|].
    rewrite Hlib. unfold nameless. rewrite Hm, Hev.
    destruct (c_module_of arg) as [|a s]; cbn [PyStr.truthy].
    + split; [discriminate|].
      intros (Hpy & _). exfalso. eapply python_not_native; eassumption.
    + rewrite first_split_dot. unfold unnamed. split.
      * intros [H | H]; [discriminate | exact H].
      * intros H. right. exact H.
Qed.

End RecordedEvents.

(** ** The engine *)

Module EngineFacts.
Import Engine EngineSpec.

Lemma CallNode_ind' (Q : CallNode -> Prop) :
  (forall sym lib ext t_in t_out trunc cs self total,
     Forall Q cs ->
     Q (mkNode sym lib ext t_in t_out trunc cs self total)) ->
  forall n, Q n.
Proof.
  intros H. fix IH 1. intros [sym lib ext t_in t_out trunc cs self total].
  apply H. induction cs as [|c cs IHcs]; constructor.
  - apply IH.
  - exact IHcs.
Qed.

Lemma annotate_eq sym lib ext t_in t_out trunc cs self total :
  annotate (mkNode sym lib ext t_in t_out trunc cs self total) =
  let (cs', ws) := annotate_all cs in
  if Z.ltb (t_out - t_in - sum_total cs') 0
  then (mkNode sym lib ext t_in t_out trunc cs' 0 (t_out - t_in),
        ws ++ [ClampedSelfTime sym])
  else (mkNode sym lib ext t_in t_out trunc cs'
          (t_out - t_in - sum_total cs') (t_out - t_in), ws).
Proof. reflexivity. Qed.

Lemma annotate_all_cons c l :
  annotate_all (c :: l) =
  (fst (annotate c) :: fst (annotate_all l),
   snd (annotate c) ++ snd (annotate_all l)).
Proof.
  cbn [annotate_all].
  destruct (annotate c) as [c' w1]. destruct (annotate_all l) as [l' w2].
  reflexivity.
Qed.

Lemma preorder_eq n : preorder n = n :: nodes (children n).
Proof. destruct n. reflexivity. Qed.

Lemma nodes_cons c l : nodes (c :: l) = preorder c ++ nodes l.
Proof. reflexivity. Qed.

(** The total time of an annotated node is its span. *)
Lemma annotate_total n :
  total_time_ns (fst (annotate n)) = exited_at n - entered_at n.
Proof.
  destruct n as [sym lib ext t_in t_out trunc cs self total].
  rewrite annotate_eq. destruct (annotate_all cs) as [cs' ws].
  destruct (Z.ltb _ 0); reflexivity.
Qed.

Lemma sum_total_annotate_all l :
  sum_total (fst (annotate_all l)) = span_sum l.
Proof.
  induction l as [|c l IH]; [reflexivity|].
  rewrite annotate_all_cons. cbn [fst sum_total span_sum fold_right].
  fold (sum_total (fst (annotate_all l))). fold (span_sum l).
  rewrite annotate_total, IH. reflexivity.
Qed.

Lemma self_time_ok_more ws ws' n :
  (forall x, In x ws -> In x ws') ->
  self_time_ok ws n -> self_time_ok ws' n.
Proof.
  intros Hin (Hpos & [Hrt | (H0 & Hlt & Hw)]); split; auto.
  right. repeat split; auto.
Qed.

Lemma self_time_ok_all l :
  Forall (fun c => Forall (self_time_ok (snd (annotate c)))
                     (preorder (fst (annotate c)))) l ->
  Forall (self_time_ok (snd (annotate_all l)))
    (nodes (fst (annotate_all l))).
Proof.
  induction 1 as [|c l Hc Hl IH]; [constructor|].
  rewrite annotate_all_cons. cbn [fst snd]. rewrite nodes_cons.
  apply Forall_app. split.
  - eapply Forall_impl; [exact Hc|]. intros n. apply self_time_ok_more.
    intros x Hx. apply in_or_app. left. exact Hx.
  - eapply Forall_impl; [exact IH|]. intros n. apply self_time_ok_more.
    intros x Hx. apply in_or_app. right. exact Hx.
Qed.

(** Non-negative self time, for every node and every input. *)
Lemma annotate_self_time_ok n :
  Forall (self_time_ok (snd (annotate n))) (preorder (fst (annotate n))).
Proof.
  induction n as [sym lib ext t_in t_out trunc cs self total IH]
    using CallNode_ind'.
  apply self_time_ok_all in IH.
  rewrite annotate_eq. destruct (annotate_all cs) as [cs' ws].
  cbn [fst snd] in IH.
  destruct (Z.ltb_spec (t_out - t_in - sum_total cs') 0) as [Hlt | Hge];
    cbn [fst snd]; rewrite preorder_eq; cbn [children]; constructor.
  - split; [cbn; lia|]. right. unfold clamped.
    cbn [self_time_ns total_time_ns children symbol].
    split; [reflexivity|]. split; [lia|].
    apply in_or_app. right. left. reflexivity.
  - eapply Forall_impl; [exact IH|]. intros n. apply self_time_ok_more.
    intros x Hx. apply in_or_app. left. exact Hx.
  - split; [cbn; lia|]. left. unfold round_trip.
    cbn [self_time_ns total_time_ns children]. lia.
  - exact IH.
Qed.

(** *** Windows of time *)

Lemma chain_bounds lo hi l : chain lo hi l -> lo <= hi.
Proof.
  revert lo. induction l as [|n l IH]; intros lo; cbn; [auto|].
  intros (H1 & H2 & H3). apply IH in H3. lia.
Qed.

Lemma chain_app lo mid hi l1 l2 :
  chain lo mid l1 -> chain mid hi l2 -> chain lo hi (l1 ++ l2).
Proof.
  revert lo. induction l1 as [|n l1 IH]; intros lo; cbn.
  - intros Hle H2. destruct l2 as [|m l2]; cbn in *.
    + lia.
    + destruct H2 as (H1 & H2 & H3). repeat split; auto. lia.
  - intros (H1 & H2 & H3) H4. repeat split; auto.
Qed.

Lemma chain_widen lo hi hi' l : chain lo hi l -> hi <= hi' -> chain lo hi' l.
Proof.
  intros H Hle. rewrite <- (app_nil_r l).
  apply chain_app with (mid := hi); [exact H | exact Hle].
Qed.

Lemma chain_span_sum lo hi l : chain lo hi l -> span_sum l <= hi - lo.
Proof.
  revert lo. induction l as [|n l IH]; intros lo; cbn.
  - lia.
  - intros (H1 & H2 & H3). apply IH in H3.
    fold (span_sum l). lia.
Qed.

Lemma frames_ok_widen t t' frames :
  frames_ok t frames -> t <= t' -> frames_ok t' frames.
Proof.
  destruct frames as [|f rest]; cbn; [auto|].
  intros (H1 & H2 & H3) Hle. repeat split; auto.
  eapply chain_widen; eassumption.
Qed.

Lemma close_well_timed f t trunc :
  chain (Event.timestamp (origin f)) t (buffer f) ->
  Forall well_timed (buffer f) ->
  well_timed (close f t trunc).
Proof. intros H1 H2. constructor; cbn; assumption. Qed.

Lemma step_inv t st e :
  inv t st -> t <= Event.timestamp e -> inv (Event.timestamp e) (step st e).
Proof.
  intros (Hframes & Hforest & Hlast) Hle. unfold step.
  destruct (Event.kind e).
  - (* Call *)
    split; [|split; [exact Hforest | right; reflexivity]].
    cbn. repeat split; [lia | constructor |].
    eapply frames_ok_widen; eassumption.
  - (* Return *)
    destruct (stack st) as [|top rest] eqn:Hstack.
    + split; [exact I|]. split; [exact Hforest | left; reflexivity].
    + destruct Hframes as (Hchain & Hbuf & Hrest).
      assert (well_timed (close top (Event.timestamp e) false)) as Hwt.
      { apply close_well_timed; [|exact Hbuf].
        eapply chain_widen; eassumption. }
      pose proof (chain_bounds _ _ _ Hchain) as Hb.
      destruct rest as [|parent rest'].
      * split; [exact I|]. split; [|left; reflexivity].
        cbn. apply Forall_app. split; [exact Hforest|].
        constructor; [exact Hwt | constructor].
      * destruct Hrest as (Hpc & Hpb & Hprest).
        split; [|split; [exact Hforest | right; reflexivity]].
        cbn. repeat split; [| |exact Hprest].
        -- eapply chain_app; [exact Hpc|]. cbn. lia.
        -- apply Forall_app. split; [exact Hpb|].
           constructor; [exact Hwt | constructor].
  - (* NativeCall *)
    split; [|split; [exact Hforest | right; reflexivity]].
    cbn. repeat split; [lia | constructor |].
    eapply frames_ok_widen; eassumption.
  - (* NativeReturn *)
    destruct (stack st) as [|top rest] eqn:Hstack.
    + split; [exact I|]. split; [exact Hforest | left; reflexivity].
    + destruct Hframes as (Hchain & Hbuf & Hrest).
      assert (well_timed (close top (Event.timestamp e) false)) as Hwt.
      { apply close_well_timed; [|exact Hbuf].
        eapply chain_widen; eassumption. }
      pose proof (chain_bounds _ _ _ Hchain) as Hb.
      destruct rest as [|parent rest'].
      * split; [exact I|]. split; [|left; reflexivity].
        cbn. apply Forall_app. split; [exact Hforest|].
        constructor; [exact Hwt | constructor].
      * destruct Hrest as (Hpc & Hpb & Hprest).
        split; [|split; [exact Hforest | right; reflexivity]].
        cbn. repeat split; [| |exact Hprest].
        -- eapply chain_app; [exact Hpc|]. cbn. lia.
        -- apply Forall_app. split; [exact Hpb|].
           constructor; [exact Hwt | constructor].
Qed.

Lemma nondecreasing_tail x l : nondecreasing (x :: l) -> nondecreasing l.
Proof. destruct l as [|y l]; cbn; [auto | intros [_ H]; exact H]. Qed.

Lemma fold_step_inv events t st :
  inv t st -> nondecreasing (t :: timestamps events) ->
  exists t', inv t' (fold_left step events st).
Proof.
  revert t st. induction events as [|e events IH]; intros t st Hinv Hsorted.
  - exists t. exact Hinv.
  - cbn [fold_left]. apply (IH (Event.timestamp e)).
    + apply (step_inv t); [exact Hinv|].
      destruct Hsorted as [Hle _]. exact Hle.
    + eapply nondecreasing_tail. exact Hsorted.
Qed.

Lemma unwind_well_timed t frames : forall carry m,
  Forall well_timed carry -> chain m t carry -> frames_ok m frames ->
  Forall well_timed (unwind t carry frames).
Proof.
  induction frames as [|f rest IH]; intros carry m Hcarry Hchain Hframes.
  - exact Hcarry.
  - cbn [unwind]. destruct Hframes as (Hfc & Hfb & Hrest).
    assert (chain (Event.timestamp (origin f)) t (buffer f ++ carry)) as Hc.
    { eapply chain_app; eassumption. }
    apply (IH _ (Event.timestamp (origin f))); [| |exact Hrest].
    + constructor; [|constructor].
      apply close_well_timed; cbn [origin buffer]; [exact Hc|].
      apply Forall_app. split; assumption.
    + cbn. pose proof (chain_bounds _ _ _ Hc). lia.
Qed.

Lemma finish_well_timed t st :
  inv t st -> Forall well_timed (fst (finish st)).
Proof.
  intros (Hframes & Hforest & Hlast). unfold finish. cbn [fst].
  apply Forall_app. split; [exact Hforest|].
  destruct Hlast as [Hnil | Hlast].
  - rewrite Hnil. cbn [unwind]. apply Forall_nil_2.
  - rewrite Hlast. cbn [default].
    apply (unwind_well_timed t (stack st) [] t);
      [constructor | cbn; lia | exact Hframes].
Qed.

(** On a stream in timestamp order every call of the forest lies inside
    its caller. *)
Lemma build_tree_well_timed events :
  nondecreasing (timestamps events) ->
  Forall well_timed (fst (build_tree events)).
Proof.
  intros Hsorted. unfold build_tree.
  destruct events as [|e events].
  - cbn. constructor.
  - destruct (fold_step_inv (e :: events) (Event.timestamp e) initial)
      as (t' & Hinv).
    + split; [exact I|]. split; [constructor | left; reflexivity].
    + cbn. split; [lia | exact Hsorted].
    + eapply finish_well_timed. exact Hinv.
Qed.

Lemma round_trip_all l :
  Forall (fun c => well_timed c ->
                   Forall round_trip (preorder (fst (annotate c))) /\
                   snd (annotate c) = []) l ->
  Forall well_timed l ->
  Forall round_trip (nodes (fst (annotate_all l))) /\
  snd (annotate_all l) = [].
Proof.
  induction 1 as [|c l Hc Hl IH]; intros Hwt; [split; constructor|].
  inversion Hwt as [|? ? Hwc Hwl]; subst.
  destruct (Hc Hwc) as (Hc1 & Hc2). destruct (IH Hwl) as (Hl1 & Hl2).
  rewrite annotate_all_cons. cbn [fst snd]. rewrite nodes_cons, Hc2, Hl2.
  split; [|reflexivity]. apply Forall_app. split; assumption.
Qed.

(** Round-trip timing, with no clamping, for a well-timed node. *)
Lemma annotate_round_trip n :
  well_timed n ->
  Forall round_trip (preorder (fst (annotate n))) /\ snd (annotate n) = [].
Proof.
  induction n as [sym lib ext t_in t_out trunc cs self total IH]
    using CallNode_ind'.
  intros Hwt. inversion Hwt as [? Hchain Hkids]; subst.
  cbn [entered_at exited_at children] in Hchain, Hkids.
  destruct (round_trip_all cs IH Hkids) as (Hall & Hws).
  pose proof (sum_total_annotate_all cs) as Hsum.
  pose proof (chain_span_sum _ _ _ Hchain) as Hspan.
  rewrite annotate_eq. destruct (annotate_all cs) as [cs' ws].
  cbn [fst snd] in Hall, Hws, Hsum. subst ws.
  destruct (Z.ltb_spec (t_out - t_in - sum_total cs') 0) as [Hlt | Hge];
    [lia|].
  cbn [fst snd]. split; [|reflexivity].
  rewrite preorder_eq. cbn [children]. constructor; [|exact Hall].
  unfold round_trip. cbn [self_time_ns total_time_ns children]. lia.
Qed.

Lemma process_eq events :
  process events =
  (fst (annotate_all (fst (build_tree events))),
   rollup (fst (annotate_all (fst (build_tree events)))),
   snd (build_tree events) ++ snd (annotate_all (fst (build_tree events)))).
Proof.
  unfold process, aggregate.
  destruct (build_tree events) as [forest ws1]. cbn [fst snd].
  destruct (annotate_all forest) as [forest' ws2]. reflexivity.
Qed.

(** C4. In the aggregated call tree of an event sequence the self time of
    every node is never negative: it is the total time minus the
    children's total times, and a negative difference is clamped to zero
    with a recorded warning (no error). On an event sequence as the
    specification defines it, with timestamps in non-decreasing order,
    the total time of every node is its self time plus the sum of its
    children's total times. *)
Theorem timing_of_aggregated_tree events forest summary ws :
  process events = (forest, summary, ws) ->
  Forall (self_time_ok ws) (nodes forest) /\
  (nondecreasing (timestamps events) -> Forall round_trip (nodes forest)).
Proof.
  rewrite process_eq. intros Heq. inversion Heq; subst. clear Heq. split.
  - assert (Forall (fun c => Forall (self_time_ok (snd (annotate c)))
                               (preorder (fst (annotate c))))
              (fst (build_tree events))) as H.
    { apply Forall_forall. intros c _. apply annotate_self_time_ok. }
    apply self_time_ok_all in H.
    eapply Forall_impl; [exact H|]. intros n. apply self_time_ok_more.
    intros x Hx. apply in_or_app. right. exact Hx.
  - intros Hsorted. apply build_tree_well_timed in Hsorted.
    apply round_trip_all; [|exact Hsorted].
    apply Forall_forall. intros c _. apply annotate_round_trip.
Qed.

End EngineFacts.

(** ** The statements on concrete runs *)

Lemma ticking_monotone : monotone ticking.
Proof. intros i j Hij. unfold ticking. lia. Qed.

(** The handler run under a clock that ticks: C7 applies. *)
Lemma timestamps_nondecreasing_handler :
  monotone (perf_counter (demo_runtime ticking)) /\
  (nondecreasing
     (map timestamp_ns
        (events (final handler ".profile" [] ∅ (demo_world ∅)))) /\
   exists hi,
     stamped (perf_counter (demo_runtime ticking))
       (S (perf_reads (demo_world ∅))) hi
       (events (final handler ".profile" [] ∅ (demo_world ∅)))).
Proof.
  split; [exact ticking_monotone|].
  apply (@timestamps_nondecreasing (demo_runtime ticking) Z handler
           ".profile" [] ∅ (demo_world ∅)).
  exact ticking_monotone.
Defined.

(** A traced call that raises no notification: C8 applies, and nothing is
    processed, written or printed. *)
Lemma zero_events_silent :
  events (final silent ".profile" [] ∅ (demo_world ∅)) = [] /\
  (Engine.build_tree [] = ([], []) /\
   Engine.process [] = ([], ∅, []) /\
   returned silent ".profile" [] ∅ (demo_world ∅) = Ok 7 /\
   processed (final silent ".profile" [] ∅ (demo_world ∅)) = [] /\
   fs (final silent ".profile" [] ∅ (demo_world ∅)) = ∅ /\
   stdout (final silent ".profile" [] ∅ (demo_world ∅)) = []).
Proof.
  split; [vm_compute; reflexivity|].
  apply (@zero_events (demo_runtime ticking) Z silent ".profile" [] ∅
           (demo_world ∅)).
  vm_compute. reflexivity.
Defined.

(** The handler run on an empty file system: the report of its one call
    of [process_events] can be built, written and announced. *)
Lemma handler_report_ok :
  forall evs nm s t,
    processed (final handler ".profile" [] ∅ (demo_world ∅))
    = processed (demo_world ∅) ++ [(evs, nm, s, t)] ->
    report_ok (demo_runtime ticking) ".profile" (fs (demo_world ∅))
      (stdout (demo_world ∅)) (evs, nm, s, t).
Proof.
  intros evs nm s t Hlog. vm_compute in Hlog.
  injection Hlog as <- <- <- <-.
  exists "<html>handler</html>",
    (<[".profile" := Dir]> ∅),
    (<[".profile/handler_20240101_120000.html"
       := File "<html>handler</html>"]> (<[".profile" := Dir]> ∅)).
  repeat split; vm_compute; reflexivity.
Qed.


(** The nested calls A and B: their timestamps are in order, and both
    parts of the timing statement hold on their tree. *)
Lemma timing_of_nested_calls :
  Engine.process EngineSpec.nested_calls
  = (fst (fst (Engine.process EngineSpec.nested_calls)),
     snd (fst (Engine.process EngineSpec.nested_calls)),
     snd (Engine.process EngineSpec.nested_calls)) /\
  nondecreasing (EngineSpec.timestamps EngineSpec.nested_calls) /\
  Forall
    (EngineSpec.self_time_ok (snd (Engine.process EngineSpec.nested_calls)))
    (Engine.nodes (fst (fst (Engine.process EngineSpec.nested_calls)))) /\
  Forall EngineSpec.round_trip
    (Engine.nodes (fst (fst (Engine.process EngineSpec.nested_calls)))).
Proof.
  assert (nondecreasing (EngineSpec.timestamps EngineSpec.nested_calls))
    as Hsorted.
  { cbn. repeat split; discriminate. }
  split; [reflexivity|]. split; [exact Hsorted|].
  destruct (EngineFacts.timing_of_aggregated_tree EngineSpec.nested_calls
              (fst (fst (Engine.process EngineSpec.nested_calls)))
              (snd (fst (Engine.process EngineSpec.nested_calls)))
              (snd (Engine.process EngineSpec.nested_calls)) eq_refl)
    as [Hself Hround].
  split; [exact Hself | exact (Hround Hsorted)].
Defined.

(** The specification's first scenario: A (total 50, self 30) with the
    child B (total 20, self 20), in timestamp order, no warning. *)
Example nested_calls_timing :
  nondecreasing (EngineSpec.timestamps EngineSpec.nested_calls) /\
  map (fun n => (Engine.symbol n, Engine.total_time_ns n,
                 Engine.self_time_ns n))
      (Engine.nodes (fst (fst (Engine.process EngineSpec.nested_calls))))
  = [("A", 50, 30); ("B", 20, 20)] /\
  snd (Engine.process EngineSpec.nested_calls) = [].
Proof. split; [cbn; lia|]. split; reflexivity. Qed.

(** A traced function that raises: the exception reaches the caller, the
    report is written and the hook is gone. *)
Example failing_call_torn_down :
  returned failing ".profile" [] ∅ (demo_world ∅)
  = Raise (PyExc "ValueError") /\
  sys_profile (final failing ".profile" [] ∅ (demo_world ∅)) = None /\
  stdout (final failing ".profile" [] ∅ (demo_world ∅))
  = ["[callprofiler] Report saved to .profile/failing_20240101_120000.html"].
Proof. repeat split; vm_compute; reflexivity. Qed.

(** Why the order of the timestamps matters: on a stream whose timestamps
    go back, which the callback never produces under a monotone clock, the
    callee B spans 90 ns inside a caller A that spans 50 ns, so the self
    time of A is clamped to 0 and the total of A is not the sum. *)
Lemma round_trip_broken_out_of_order :
  exists n,
    In n (Engine.nodes (fst (fst (Engine.process EngineSpec.out_of_order)))) /\
    Engine.symbol n = "A" /\
    Engine.total_time_ns n = 50 /\
    Engine.self_time_ns n = 0 /\
    Engine.sum_total (Engine.children n) = 90 /\
    Engine.total_time_ns n
    <> Engine.self_time_ns n + Engine.sum_total (Engine.children n).
Proof.
  eexists. split; [left; reflexivity|].
  repeat (split; [reflexivity|]). discriminate.
Qed.

(** C2. [_is_external] does not test that a file lies under a stdlib,
    platstdlib or sys.prefix directory, it tests that the normalised name
    starts with the characters of the directory: with [sys.prefix] "/usr"
    the file "/usrlocal/foo.py" is answered [True], though it is not
    [None], does not start with "<", contains no site-packages marker and
    lies under none of "/usr/lib/python3.12",
    "/usr/lib/python3.12/lib-dynload" and "/usr". *)
Theorem is_external_ignores_component_boundary :
  sys_prefix linux = "/usr" /\
  _is_external linux (PyStr "/usrlocal/foo.py") = true /\
  ~ claimed_external linux (PyStr "/usrlocal/foo.py").
Proof.
  split; [reflexivity|]. split; [vm_compute; reflexivity|].
  intros [Hnone | (f & Hf & Hcases)]; [discriminate|].
  injection Hf as <-.
  destruct Hcases as [Hlt | [Hmarker | Hunder]].
  - apply PyStrFacts.startswith_spec in Hlt. vm_compute in Hlt. discriminate.
  - destruct Hmarker as (marker & [-> | ->] & Hin);
      apply PyStrFacts.contains_spec in Hin; vm_compute in Hin; discriminate.
  - destruct Hunder as (sp & Hroot & Hunder).
    apply stdlib_paths_spec in Hroot. vm_compute in Hroot.
    destruct Hroot as [<- | [<- | [<- | []]]];
      destruct Hunder as [Heq | [(rest & Heq) | (d & rest & Hd & Heq)]];
      vm_compute in Heq; try discriminate.
    destruct d as [|a [|b [|c [|e [|g d]]]]]; vm_compute in Hd; discriminate.
Qed.

(** C3. The callback does not keep the library name of an external record
    non-empty: for code run from a hidden directory of site-packages
    without [__name__] in its globals, [_extract_library_name] takes the
    part of ".tools" before the first dot and the record is appended with
    [is_external] true and the empty library name. *)
Lemma external_record_without_library_name :
  exists r,
    In r (events (final hidden ".profile" [] ∅ (demo_world ∅))) /\
    event r = "call" /\
    filename r = "/srv/venv/lib/python3.12/site-packages/.tools/run.py" /\
    is_external r = true /\
    library_name r = "".
Proof.
  exists {| event := "call"; func_name := "run"; module := PyStr "";
            filename := "/srv/venv/lib/python3.12/site-packages/.tools/run.py";
            lineno := 1; timestamp_ns := 1010; is_external := true;
            library_name := "" |}.
  split; [vm_compute; left; reflexivity|].
  repeat split; reflexivity.
Qed.

(** C9 as stated fails for a native callee whose [__module__] is the
    profiler module's name: its record is kept, with that module. *)
Lemma native_record_with_profiler_module :
  exists r,
    In r (events (final native_helper ".profile" [] ∅ (demo_world ∅))) /\
    event r = "c_call" /\
    func_name r = "helper" /\
    module r = PyStr __name__.
Proof.
  exists {| event := "c_call"; func_name := "helper";
            module := PyStr "callprofiler.profiler";
            filename := ""; lineno := 0; timestamp_ns := 1010;
            is_external := true; library_name := "callprofiler" |}.
  split; [vm_compute; left; reflexivity|].
  repeat split; reflexivity.
Qed.


(** * Further properties of the module *)

(** ** Splitting names *)

Module SplitFacts.
Import PyStr.

Lemma first_split_no_sep c s : no_char c (first (split c s)).
Proof.
  induction s as [|a s IH]; cbn [split]; [exact I|].
  destruct (Ascii.eqb_spec a c) as [->|Hne]; [exact I|].
  destruct (split c s) as [|h t]; cbn [first hd] in *.
  - split; [exact Hne | exact I].
  - split; [exact Hne | exact IH].
Qed.

Lemma split_not_nil c s : split c s <> [].
Proof.
  destruct s as [|a s]; cbn [split]; [discriminate|].
  destruct (Ascii.eqb a c); [discriminate|].
  destruct (split c s); discriminate.
Qed.

(** A string is its first field, alone or followed by the separator. *)
Lemma first_split_decomp c s :
  s = first (split c s) \/
  exists rest, s = first (split c s) +:+ String c rest.
Proof.
  induction s as [|a s IH]; cbn [split]; [left; reflexivity|].
  destruct (Ascii.eqb_spec a c) as [->|Hne].
  - right. exists s. reflexivity.
  - pose proof (split_not_nil c s) as Hnn.
    destruct (split c s) as [|h t]; [congruence|]. cbn [first hd] in *.
    destruct IH as [IH | [rest IH]].
    + left. congruence.
    + right. exists rest. cbn. congruence.
Qed.

(** The first field of [p ++ t] is [p] when [p] holds no separator and
    [t] is empty or opens with one. *)
Lemma first_split_prefix c p t :
  no_char c p -> opens_with c t -> first (split c (p +:+ t)) = p.
Proof.
  intros Hp Ht. induction p as [|a p IH]; cbn.
  - destruct Ht as [-> | [t' ->]]; cbn; [reflexivity|].
    rewrite Ascii.eqb_refl. reflexivity.
  - destruct Hp as [Hne Hp].
    destruct (Ascii.eqb_spec a c) as [->|_]; [contradiction|].
    specialize (IH Hp).
    pose proof (split_not_nil c (p +:+ t)) as Hnn.
    destruct (split c (p +:+ t)) as [|h tl]; [congruence|].
    cbn [first hd] in *. congruence.
Qed.

Lemma no_char_app c s t : no_char c s -> no_char c t -> no_char c (s +:+ t).
Proof.
  intros Hs Ht. induction s as [|a s IH]; cbn; [exact Ht|].
  destruct Hs as [Hne Hs]. split; [exact Hne | exact (IH Hs)].
Qed.

Lemma find_none_not_occurs m s :
  find m s = None <-> ~ occurs_in m s.
Proof.
  rewrite <- PyStrFacts.contains_spec.
  induction s as [|a s IH]; cbn [find contains].
  - destruct (startswith "" m); cbn; split; try discriminate; congruence.
  - destruct (startswith (String a s) m); cbn [orb].
    + split; [discriminate | intros H; exfalso; apply H; reflexivity].
    + rewrite <- IH. destruct (find m s); cbn; split; congruence.
Qed.

End SplitFacts.

(** ** The stdlib directories and the library name *)

Section ClassificationMore.

Variable P : Platform.

(** X1. [_compute_stdlib_paths] always ends with the normalised
    [sys.prefix], returns at most three directories, and holds nothing
    else than the normalised [stdlib] and [platstdlib] entries of
    [sysconfig.get_paths()] that are set and not empty: an unset or empty
    entry is skipped, not normalised. *)
Theorem stdlib_paths_shape :
  last (_compute_stdlib_paths P) = Some (normpath P (sys_prefix P)) /\
  (1 <= length (_compute_stdlib_paths P) <= 3)%nat /\
  (forall sp, In sp (_compute_stdlib_paths P) <-> stdlib_root P sp).
Proof.
  split; [|split; [|apply stdlib_paths_spec]].
  - unfold _compute_stdlib_paths. rewrite last_snoc. reflexivity.
  - unfold _compute_stdlib_paths. rewrite length_app. cbn.
    destruct (get_paths P !! "stdlib") as [[|a1 p1]|];
      destruct (get_paths P !! "platstdlib") as [[|a2 p2]|]; cbn; lia.
Qed.

(** X2. Whatever [sysconfig] reports, a file whose normalised name starts
    with the normalised [sys.prefix] is external. *)
Theorem under_prefix_is_external (f : string) :
  PyStr.starts_with (normpath P f) (normpath P (sys_prefix P)) ->
  _is_external P (PyStr f) = true.
Proof.
  intros Hpre. apply is_external_true. right. exists f.
  split; [reflexivity|]. right; right.
  exists (normpath P (sys_prefix P)). split; [right; reflexivity | exact Hpre].
Qed.

(** X17. For file names that do not start with "<", the classification
    depends on the normalised name only: two spellings of one path are
    classified alike. *)
Theorem is_external_by_normal_form (f g : string) :
  PyStr.startswith f "<" = false ->
  PyStr.startswith g "<" = false ->
  normpath P f = normpath P g ->
  _is_external P (PyStr f) = _is_external P (PyStr g).
Proof.
  intros Hf Hg Hnorm. unfold _is_external.
  rewrite !frozen_is_angle, Hf, Hg, Hnorm. reflexivity.
Qed.

Lemma builtin_stdlib_dot_free :
  no_char "."%char "<builtin>" /\ no_char "."%char "<stdlib>".
Proof. cbn. repeat split; discriminate. Qed.

(** X3. The library name is a top-level name: [_extract_library_name]
    never returns a string with a dot in it, and for a non-empty module
    name it returns the part before the first dot, so that the module is
    that name alone or that name, a dot and the rest. *)
Theorem library_name_top_level (filename module : pyval) :
  no_char "."%char (_extract_library_name P filename module) /\
  (forall a s,
     module = PyStr (String a s) ->
     let lib := _extract_library_name P filename module in
     String a s = lib \/ exists rest, String a s = lib +:+ String "."%char rest).
Proof.
  split.
  - unfold _extract_library_name.
    assert (no_char "."%char
              match filename with
              | PyNone => "<builtin>"
              | PyStr f =>
                  match marker_loop P f _SITE_PACKAGES_MARKERS with
                  | Some comp => PyStr.first (PyStr.split "."%char comp)
                  | None => "<stdlib>"
                  end
              end) as Hfile.
    { destruct filename as [|f]; [apply builtin_stdlib_dot_free|].
      destruct (marker_loop P f _SITE_PACKAGES_MARKERS) as [comp|];
        [apply SplitFacts.first_split_no_sep | apply builtin_stdlib_dot_free]. }
    destruct module as [|[|a s]]; try exact Hfile.
    apply SplitFacts.first_split_no_sep.
  - intros a s -> lib. subst lib. unfold _extract_library_name.
    apply SplitFacts.first_split_decomp.
Qed.

(** X4. Without a module name ([None] or empty), [_extract_library_name]
    falls back on the file name: "<builtin>" when there is none, and
    "<stdlib>" when neither "site-packages" nor "dist-packages" occurs in
    it. *)
Theorem library_name_fallbacks (module : pyval) :
  no_module module ->
  _extract_library_name P PyNone module = "<builtin>" /\
  (forall f,
     ~ PyStr.occurs_in "site-packages" f ->
     ~ PyStr.occurs_in "dist-packages" f ->
     _extract_library_name P (PyStr f) module = "<stdlib>").
Proof.
  intros Hm. split.
  - destruct Hm as [-> | ->]; reflexivity.
  - intros f Hs Hd.
    apply SplitFacts.find_none_not_occurs in Hs, Hd.
    assert (marker_loop P f _SITE_PACKAGES_MARKERS = None) as Hloop.
    { unfold _SITE_PACKAGES_MARKERS. cbn [marker_loop].
      rewrite Hs, Hd. reflexivity. }
    destruct Hm as [-> | ->]; unfold _extract_library_name;
      rewrite Hloop; reflexivity.
Qed.

(** X5. Without a module name, a file installed under site-packages (or
    under dist-packages when "site-packages" does not occur in its name)
    gets the name of its top-level package or module: what follows the
    first occurrence of the marker and the separators after it, up to the
    next separator, cut at its first dot. *)
Theorem library_name_of_site_package
    (f : string) (module : pyval) (marker : string) (idx : nat)
    (pkg ext tail : string) :
  no_module module ->
  marker = "site-packages" \/
  (marker = "dist-packages" /\ ~ PyStr.occurs_in "site-packages" f) ->
  PyStr.find marker f = Some idx ->
  PyStr.lstrip (os_sep P) (PyStr.drop (idx + String.length marker) f)
  = (pkg +:+ ext) +:+ tail ->
  no_char "."%char pkg -> no_char (os_sep P) pkg ->
  no_char (os_sep P) ext -> opens_with "."%char ext ->
  opens_with (os_sep P) tail ->
  _extract_library_name P (PyStr f) module = pkg.
Proof.
  intros Hm Hmarker Hfind Hrest Hdot Hsep Hext Hopen Htail.
  assert (marker_loop P f _SITE_PACKAGES_MARKERS = Some (pkg +:+ ext))
    as Hloop.
  { assert (component_after P f marker idx = pkg +:+ ext) as Hcomp.
    { unfold component_after. rewrite Hrest.
      apply SplitFacts.first_split_prefix; [|exact Htail].
      apply SplitFacts.no_char_app; assumption. }
    unfold _SITE_PACKAGES_MARKERS. cbn [marker_loop].
    destruct Hmarker as [-> | [-> Hnone]].
    - rewrite Hfind, Hcomp. reflexivity.
    - apply SplitFacts.find_none_not_occurs in Hnone.
      rewrite Hnone, Hfind, Hcomp. reflexivity. }
  assert (PyStr.first (PyStr.split "."%char (pkg +:+ ext)) = pkg) as Hpkg.
  { apply SplitFacts.first_split_prefix; assumption. }
  destruct Hm as [-> | ->]; unfold _extract_library_name;
    rewrite Hloop; exact Hpkg.
Qed.

End ClassificationMore.

(** ** The callback, notification by notification *)

Lemma recordable_notify f ev arg :
  recordable (Notify f ev arg) = true <->
  (python_level ev /\ module_of f <> PyStr __name__) \/
  (native_level ev /\ c_name_of arg <> "setprofile").
Proof.
  cbn [recordable].
  rewrite orb_true_iff, !andb_true_iff, !negb_true_iff,
    !bool_decide_eq_false, py_in_python, py_in_native.
  reflexivity.
Qed.

Section CallbackMore.

Context {R : Runtime}.

(** What the callback appends, case by case. *)
Lemma callback_appends (f : frame) (ev : string) (arg : pyobject)
    (w : World R) :
  let w' := snd (_profile_callback __name__ f ev arg w) in
  let ts := perf_counter R (perf_reads w) in
  (python_level ev -> module_of f <> PyStr __name__ ->
   exists r, events w' = events w ++ [r] /\
             python_record (platform R) f ev ts r) /\
  (native_level ev -> c_name_of arg <> "setprofile" ->
   exists r, events w' = events w ++ [r] /\ native_record arg ev ts r) /\
  (recordable (Notify f ev arg) = false -> events w' = events w).
Proof.
  destruct (callback_effect f ev arg w)
    as (_ & _ & _ & _ & _ & _ & Hev).
  cbv zeta. split; [|split].
  - intros Hpy Hmod.
    destruct Hev as [Hsame | (r & Hr & [Hrec | Hrec])].
    + exfalso. revert Hsame.
      unfold _profile_callback, bind, perf_counter_ns.
      apply py_in_python in Hpy. rewrite Hpy.
      fold (module_of f).
      rewrite (bool_decide_eq_false_2 _ Hmod). cbn.
      intros Hsame. apply (f_equal (@length _)) in Hsame.
      rewrite length_app in Hsame. cbn in Hsame. lia.
    + exists r. auto.
    + exfalso. destruct Hrec as (Hnat & _).
      eapply python_not_native; eassumption.
  - intros Hnat Hname.
    destruct Hev as [Hsame | (r & Hr & [Hrec | Hrec])].
    + exfalso. revert Hsame.
      unfold _profile_callback, bind, perf_counter_ns.
      assert (py_in ev ["call"; "return"] = false) as Hnpy.
      { destruct (py_in ev ["call"; "return"]) eqn:E; [|reflexivity].
        apply py_in_python in E. exfalso.
        eapply python_not_native; eassumption. }
      apply py_in_native in Hnat. rewrite Hnpy, Hnat.
      fold (c_name_of arg).
      rewrite (bool_decide_eq_false_2 _ Hname). cbn.
      intros Hsame. apply (f_equal (@length _)) in Hsame.
      rewrite length_app in Hsame. cbn in Hsame. lia.
    + exfalso. destruct Hrec as (Hpy & _).
      eapply python_not_native; eassumption.
    + exists r. auto.
  - intros Hno.
    destruct Hev as [Hsame | (r & Hr & Hrec)]; [exact Hsame|].
    exfalso.
    assert (recordable (Notify f ev arg) = true) as Hyes.
    { apply recordable_notify.
      destruct Hrec as [(Hpy & Hmod & _) | (Hnat & Hname & _)]; auto. }
    congruence.
Qed.

(** X6. The callback is safe to install: on every notification, whatever
    its kind, it returns normally, reads the clock exactly once, leaves
    the installed hook, the file system, the output and the engine alone,
    and appends at most one record, stamped with the reading it took on
    entry; a notification of any other kind than the four appends
    nothing. *)
Theorem callback_never_fails (f : frame) (ev : string) (arg : pyobject)
    (w : World R) :
  let w' := snd (_profile_callback __name__ f ev arg w) in
  fst (_profile_callback __name__ f ev arg w) = Ok tt /\
  perf_reads w' = S (perf_reads w) /\
  sys_profile w' = sys_profile w /\
  processed w' = processed w /\ fs w' = fs w /\ stdout w' = stdout w /\
  (events w' = events w \/
   exists r, events w' = events w ++ [r] /\
             event r = ev /\
             timestamp_ns r = perf_counter R (perf_reads w)) /\
  (ev <> "call" -> ev <> "return" -> ev <> "c_call" -> ev <> "c_return" ->
   events w' = events w).
Proof.
  destruct (callback_effect f ev arg w)
    as (Hok & Hsp & Hreads & Hp & Hfs & Ho & Hev).
  cbv zeta. repeat (split; [assumption|]). split.
  - destruct Hev as [Hsame | (r & Hr & Hrec)]; [left; exact Hsame|].
    right. exists r. split; [exact Hr|].
    destruct Hrec as [Hrec | Hrec]; split; apply Hrec.
  - intros H1 H2 H3 H4.
    apply (callback_appends f ev arg w).
    destruct (recordable (Notify f ev arg)) eqn:E; [|reflexivity].
    apply recordable_notify in E.
    destruct E as [([-> | ->] & _) | ([-> | ->] & _)]; congruence.
Qed.

(** X8. Missing attributes have defaults and raise nothing. A native
    callee other than "setprofile" whose [__module__] is missing or
    [None] is recorded with the empty module and the library "builtins",
    under its [__name__] or, without one, under [str(arg)]; a Python frame
    whose globals have no [__name__] is recorded with the empty module. *)
Theorem missing_attributes_default (f : frame) (ev : string)
    (arg : pyobject) (w : World R) :
  (native_level ev /\ c_name_of arg <> "setprofile" /\
   (attr___module__ arg = None \/ attr___module__ arg = Some PyNone)) \/
  (python_level ev /\ f_globals f !! "__name__" = None) ->
  exists r,
    events (snd (_profile_callback __name__ f ev arg w)) = events w ++ [r] /\
    module r = PyStr "" /\
    (native_level ev ->
     library_name r = "builtins" /\
     func_name r = default (str arg) (attr___name__ arg)).
Proof.
  intros [(Hnat & Hname & Hmod) | (Hpy & Hglob)].
  - destruct (callback_appends f ev arg w) as (_ & Happ & _).
    destruct (Happ Hnat Hname) as (r & Hr & Hrec).
    destruct Hrec as (_ & _ & _ & Hfn & Hm & _ & _ & _ & _ & Hlib).
    assert (c_module_of arg = "") as Hcm.
    { unfold c_module_of. destruct Hmod as [-> | ->]; reflexivity. }
    rewrite Hcm in Hm, Hlib.
    exists r. split; [exact Hr|]. split; [exact Hm|].
    intros _. split; [exact Hlib | exact Hfn].
  - destruct (callback_appends f ev arg w) as (Happ & _ & _).
    assert (module_of f = PyStr "") as Hmo.
    { unfold module_of. rewrite Hglob. reflexivity. }
    destruct (Happ Hpy) as (r & Hr & Hrec).
    { rewrite Hmo. discriminate. }
    destruct Hrec as (_ & _ & _ & _ & Hm & _).
    exists r. split; [exact Hr|]. split; [congruence|].
    intros Hnat. exfalso. eapply python_not_native; eassumption.
Qed.

End CallbackMore.

(** ** The records of a traced call, against its notifications *)

Section ScriptMore.

Context {R : Runtime}.

Lemma notify_keys f ev arg (w : World R) :
  sys_profile (snd (notify f ev arg w)) = sys_profile w /\
  exists recs,
    events (snd (notify f ev arg w)) = events w ++ recs /\
    (sys_profile w = Some Callback ->
     map key recs = map label (List.filter recordable [Notify f ev arg])) /\
    (sys_profile w <> Some Callback -> recs = []).
Proof.
  unfold notify.
  destruct (sys_profile w) as [[|id]|] eqn:Hh; cbn [snd];
    try (split; [exact Hh|]; exists []; rewrite app_nil_r;
         split; [reflexivity|]; split; [discriminate | reflexivity]).
  destruct (callback_effect f ev arg w) as (_ & Hsp & _).
  split; [congruence|].
  destruct (callback_appends f ev arg w) as (Hpy & Hnat & Hno).
  cbn [List.filter].
  destruct (recordable (Notify f ev arg)) eqn:Hrec.
  - apply recordable_notify in Hrec.
    destruct Hrec as [(Hl & Hm) | (Hl & Hn)].
    + destruct (Hpy Hl Hm) as (r & Hr & Hrec). exists [r].
      split; [exact Hr|]. split; [|congruence]. intros _.
      destruct Hrec as (_ & _ & Hev & Hfn & _).
      apply py_in_python in Hl. cbn [map label]. unfold key.
      rewrite Hl, Hev, Hfn. reflexivity.
    + destruct (Hnat Hl Hn) as (r & Hr & Hrec). exists [r].
      split; [exact Hr|]. split; [|congruence]. intros _.
      destruct Hrec as (Hlev & _ & Hev & Hfn & _).
      assert (py_in ev ["call"; "return"] = false) as Hnpy.
      { destruct (py_in ev ["call"; "return"]) eqn:E; [|reflexivity].
        apply py_in_python in E. exfalso.
        eapply python_not_native; eassumption. }
      cbn [map label]. unfold key. rewrite Hnpy, Hev, Hfn. reflexivity.
  - exists []. rewrite app_nil_r. split; [exact (Hno eq_refl)|].
    split; [reflexivity | congruence].
Qed.

Lemma run_script_keys l : forall (w : World R),
  exists recs,
    events (snd (run_script l w)) = events w ++ recs /\
    sublist (map key recs) (map label (List.filter recordable l)) /\
    (only_notifications l -> sys_profile w = Some Callback ->
     map key recs = map label (List.filter recordable l)).
Proof.
  induction l as [|a l IH]; intros w.
  - exists []. cbn. rewrite app_nil_r. repeat split; constructor.
  - cbn [run_script].
    destruct (run_action_effect [a] a w) as (Hok & _); [left; reflexivity|].
    rewrite (bind_ok _ _ _ _ _ (run_pair _ _ _ Hok)).
    set (w1 := snd (run_action a w)).
    destruct (IH w1) as (recs2 & Hev2 & Hsub2 & Heq2).
    assert (exists recs1,
              events w1 = events w ++ recs1 /\
              sublist (map key recs1)
                (map label (List.filter recordable [a])) /\
              ((exists f ev arg, a = Notify f ev arg) ->
               sys_profile w = Some Callback ->
               sys_profile w1 = Some Callback /\
               map key recs1 = map label (List.filter recordable [a])))
      as (recs1 & Hev1 & Hsub1 & Heq1).
    { subst w1. destruct a as [f ev arg | caller h]; cbn [run_action].
      - destruct (notify_keys f ev arg w) as (Hsp & recs & Hev & Hon & Hoff).
        exists recs. split; [exact Hev|]. split.
        + destruct (sys_profile w) as [[|id]|].
          * rewrite (Hon eq_refl). reflexivity.
          * rewrite Hoff; [apply sublist_nil_l | discriminate].
          * rewrite Hoff; [apply sublist_nil_l | discriminate].
        + intros _ Hc. split; [congruence | exact (Hon Hc)].
      - destruct (sys_setprofile_events caller (Foreign <$> h) w)
          as (Hev & _).
        exists []. rewrite app_nil_r. split; [exact Hev|].
        split; [constructor|].
        intros (f & ev & arg & Ha). discriminate. }
    exists (recs1 ++ recs2).
    change (a :: l) with ([a] ++ l).
    rewrite List.filter_app, !map_app. split; [|split].
    + rewrite Hev2, Hev1, app_assoc. reflexivity.
    + apply sublist_app; assumption.
    + intros Hall Hc.
      destruct Heq1 as (Hc1 & Hk1); [apply Hall; left; reflexivity | exact Hc|].
      rewrite Hk1, Heq2; [reflexivity | | exact Hc1].
      intros b Hb. apply Hall. right. exact Hb.
Qed.

Context {V : Type}.

Lemma call_world (func : pyfunction V) args kwargs (w : World R) :
  snd (call func args kwargs w)
  = snd (run_script (script (fn_call func args kwargs)) w).
Proof.
  unfold call.
  destruct (run_script_effect (script (fn_call func args kwargs))
              (script (fn_call func args kwargs)) w) as (Hok & _); [auto|].
  rewrite (bind_ok _ _ _ _ _ (run_pair _ _ _ Hok)). reflexivity.
Qed.

End ScriptMore.

(** ** The wrapper, stage by stage *)

Section WrapperMore.

Context {R : Runtime} {V : Type}.
Variables (func : pyfunction V) (output_dir : string).
Variables (args : list V) (kwargs : gmap string V).

(** The wrapper as three stages: a world where the hook is installed and
    the event list empty, the traced call, the [finally] clause. *)
Lemma wrapper_stages (w : World R) :
  exists w2,
    sys_profile w2 = Some Callback /\ events w2 = [] /\
    (S (perf_reads w) <= perf_reads w2)%nat /\
    processed w2 = processed w /\ fs w2 = fs w /\ stdout w2 = stdout w /\
    final func output_dir args kwargs w
    = snd (finally_block func output_dir (perf_counter R (perf_reads w))
             (snd (call func args kwargs w2))) /\
    returned func output_dir args kwargs w
    = match fst (finally_block func output_dir
                   (perf_counter R (perf_reads w))
                   (snd (call func args kwargs w2))) with
      | Ok _ => outcome (fn_call func args kwargs)
      | Raise ex => Raise ex
      end.
Proof.
  unfold final, returned. rewrite wrapper_unfold.
  set (w0 := {| sys_profile := sys_profile w; perf_reads := perf_reads w;
                events := []; processed := processed w;
                fs := fs w; stdout := stdout w |}).
  set (w1 := {| sys_profile := sys_profile w0;
                perf_reads := S (perf_reads w0);
                events := events w0; processed := processed w0;
                fs := fs w0; stdout := stdout w0 |}).
  set (start_ns := perf_counter R (perf_reads w)).
  change ((set_events [] ;;;
           start_ns <- perf_counter_ns ;;
           sys_setprofile wrapper_frame (Some Callback) ;;;
           result <- try_finally (call func args kwargs)
                       (finally_block func output_dir start_ns) ;;
           ret result) w)
    with ((sys_setprofile wrapper_frame (Some Callback) ;;;
           result <- try_finally (call func args kwargs)
                       (finally_block func output_dir start_ns) ;;
           ret result) w1).
  destruct (sys_setprofile_effect [] wrapper_frame (Some Callback) w1)
    as (Hok & _).
  destruct (sys_setprofile_events wrapper_frame (Some Callback) w1)
    as (Hev & Hsp & Hreads & Hp & Hfs & Ho).
  rewrite (bind_ok _ _ _ _ _ (run_pair _ _ _ Hok)).
  set (w2 := snd (sys_setprofile wrapper_frame (Some Callback) w1)) in *.
  exists w2.
  rewrite bind_ret_run, try_finally_run. cbn [fst snd].
  destruct (call_effect func args kwargs w2) as (Hout & _).
  rewrite Hout.
  repeat split; try assumption; reflexivity.
Qed.

(** Everything the wrapper leaves behind, by the outcome of the report. *)
Lemma wrapper_outcomes (w : World R) :
  let w' := final func output_dir args kwargs w in
  let r := returned func output_dir args kwargs w in
  let e := fn_call func args kwargs in
  let name := fn___name__ func in
  let start_ns := perf_counter R (perf_reads w) in
  exists lo hi k : nat,
    (S (perf_reads w) <= lo)%nat /\ (hi <= k)%nat /\
    stamped (perf_counter R) lo hi (events w') /\
    match events w' with
    | [] =>
        r = outcome e /\ processed w' = processed w /\ fs w' = fs w /\
        stdout w' = stdout w
    | _ :: _ =>
        processed w'
        = processed w ++ [(events w', name, start_ns, perf_counter R k)] /\
        match process_events R (events w') name start_ns (perf_counter R k)
        with
        | Raise ex => r = Raise ex /\ fs w' = fs w /\ stdout w' = stdout w
        | Ok html =>
            match mkdir R output_dir (fs w) with
            | Raise ex => r = Raise ex /\ fs w' = fs w /\ stdout w' = stdout w
            | Ok fs1 =>
                match write_text R (report_file R name output_dir) html fs1
                with
                | Raise ex =>
                    r = Raise ex /\ fs w' = fs1 /\ stdout w' = stdout w
                | Ok fs2 =>
                    match print_error R (stdout w)
                            (report_line R name output_dir) with
                    | Some ex =>
                        r = Raise ex /\ fs w' = fs2 /\ stdout w' = stdout w
                    | None =>
                        r = outcome e /\ fs w' = fs2 /\
                        stdout w'
                        = stdout w ++ [report_line R name output_dir]
                    end
                end
            end
        end
    end.
Proof.
  cbv zeta.
  destruct (wrapper_stages w)
    as (w2 & Hsp2 & Hev2 & Hr2 & Hp2 & Hfs2 & Ho2 & Hfinal & Hret).
  destruct (call_effect func args kwargs w2)
    as (_ & (recs & Hev3 & _ & Hst & Hp3 & Hfs3 & Ho3)).
  rewrite Hev2, app_nil_l in Hev3.
  set (w3 := snd (call func args kwargs w2)) in *.
  destruct (finally_cases func output_dir (perf_counter R (perf_reads w)) w3)
    as (k & Hk & _ & Hev & Hcases).
  rewrite <- Hfinal in Hev, Hcases. rewrite Hret. clear Hret Hfinal.
  set (w' := final func output_dir args kwargs w) in *.
  exists (perf_reads w2), (perf_reads w3), k.
  split; [exact Hr2|]. split; [exact Hk|].
  rewrite Hev. split; [rewrite Hev3; exact Hst|].
  rewrite Hp3, Hfs3, Ho3, Hp2, Hfs2, Ho2 in Hcases.
  destruct (events w3) as [|x evs].
  - destruct Hcases as (-> & Hrest). split; [reflexivity | exact Hrest].
  - destruct Hcases as (Hproc & Hcases). split; [exact Hproc|].
    destruct (process_events R (x :: evs) (fn___name__ func)
                (perf_counter R (perf_reads w)) (perf_counter R k))
      as [html|ex].
    2:{ destruct Hcases as (-> & Hrest). split; [reflexivity | exact Hrest]. }
    destruct (mkdir R output_dir (fs w)) as [fs1|ex].
    2:{ destruct Hcases as (-> & Hrest). split; [reflexivity | exact Hrest]. }
    destruct (write_text R _ html fs1) as [fs2|ex].
    2:{ destruct Hcases as (-> & Hrest). split; [reflexivity | exact Hrest]. }
    destruct (print_error R (stdout w) _) as [ex|];
      destruct Hcases as (-> & Hrest); (split; [reflexivity | exact Hrest]).
Qed.

End WrapperMore.

Section StampsMore.

Variable clock : nat -> Z.

Lemma stamped_le lo hi l : stamped clock lo hi l -> (lo <= hi)%nat.
Proof.
  revert lo. induction l as [|r l IH]; intros lo; cbn [stamped]; [auto|].
  intros (k & Hk & _ & Hl). apply IH in Hl. lia.
Qed.

Lemma stamped_upper_bound lo hi l :
  monotone clock -> stamped clock lo hi l ->
  Forall (fun r => timestamp_ns r <= clock hi) l.
Proof.
  intros Hmono. revert lo.
  induction l as [|r l IH]; intros lo; cbn [stamped]; [constructor|].
  intros (k & Hk & Ht & Hl). constructor; [|eapply IH; exact Hl].
  rewrite Ht. apply Hmono. apply stamped_le in Hl. lia.
Qed.

End StampsMore.

(** ** What a wrapped call records and reports *)

Section ReportFacts.

Context {R : Runtime} {V : Type}.
Variables (func : pyfunction V) (output_dir : string).
Variables (args : list V) (kwargs : gmap string V).

Abbreviation final_world w := (final func output_dir args kwargs w).
Abbreviation result_of w := (returned func output_dir args kwargs w).
Abbreviation traced_script := (script (fn_call func args kwargs)).
Abbreviation name := (fn___name__ func).

(** The final event list is what the traced call recorded. *)
Lemma final_events_keys (w : World R) :
  sublist (map key (events (final_world w)))
    (map label (List.filter recordable traced_script)) /\
  (only_notifications traced_script ->
   map key (events (final_world w))
   = map label (List.filter recordable traced_script)).
Proof.
  destruct (wrapper_stages func output_dir args kwargs w)
    as (w2 & Hsp2 & Hev2 & _ & _ & _ & _ & Hfinal & _).
  destruct (finally_cases func output_dir (perf_counter R (perf_reads w))
              (snd (call func args kwargs w2))) as (k & _ & _ & Hev & _).
  rewrite <- Hfinal in Hev. rewrite Hev, call_world.
  destruct (run_script_keys traced_script w2) as (recs & Hrecs & Hsub & Heq).
  rewrite Hev2, app_nil_l in Hrecs. rewrite Hrecs.
  split; [exact Hsub|]. intros Hall. apply Heq; assumption.
Qed.

(** X7. The classification fields of a record follow from its other
    fields: a native record is always external and its library name is the
    part of its module before the first dot, or "builtins" when it has no
    module; a Python-level record is external exactly when [_is_external]
    says so of its file name, and its library name is then what
    [_extract_library_name] makes of its file name and module. *)
Theorem record_fields_consistent (w : World R) :
  Forall
    (fun r =>
       (native_level (event r) ->
        is_external r = true /\
        exists m, module r = PyStr m /\
                  library_name r =
                    if PyStr.truthy m
                    then PyStr.first (PyStr.split "."%char m)
                    else "builtins") /\
       (python_level (event r) ->
        is_external r = _is_external (platform R) (PyStr (filename r)) /\
        library_name r =
          if is_external r
          then _extract_library_name (platform R) (PyStr (filename r))
                 (module r)
          else ""))
    (events (final_world w)).
Proof.
  apply final_events_Forall.
  intros f ev arg ts r _ [Hr | Hr].
  - destruct Hr as (Hlev & _ & Hev & _ & Hm & Hfile & _ & _ & Hext & Hlib).
    rewrite Hev, Hm, Hfile. split.
    + intros Hnat. exfalso. eapply python_not_native; eassumption.
    + intros _. split; [exact Hext | exact Hlib].
  - destruct Hr as (Hlev & _ & Hev & _ & Hm & _ & _ & _ & Hext & Hlib).
    rewrite Hev. split.
    + intros _. split; [exact Hext|]. eauto.
    + intros Hpy. exfalso. eapply python_not_native; eassumption.
Qed.

(** X9. Each recordable notification gives at most one record, and the
    records keep the order of the notifications: the kinds and function
    names of the final event list form a subsequence of those of the
    recordable notifications of the traced call, whatever the traced code
    does to the hook. *)
Theorem records_follow_notifications (w : World R) :
  sublist (map key (events (final_world w)))
    (map label (List.filter recordable traced_script)) /\
  (length (events (final_world w))
   <= length (List.filter recordable traced_script))%nat.
Proof.
  destruct (final_events_keys w) as (Hsub & _).
  split; [exact Hsub|].
  apply sublist_length in Hsub. rewrite !length_map in Hsub. exact Hsub.
Qed.

(** X10. When the traced code does not call [sys.setprofile] itself,
    nothing is lost: every call, return, c_call and c_return notification
    from outside the profiler's module, and about another callee than
    "setprofile", gives exactly one record, in order, with its kind and
    function name. *)
Theorem every_notification_recorded (w : World R) :
  only_notifications traced_script ->
  map key (events (final_world w))
  = map label (List.filter recordable traced_script).
Proof. intros Hall. apply (final_events_keys w). exact Hall. Qed.

(** X11. When events were captured and the report of the wrapper's call of
    [process_events] can be built, written and announced,
    [process_events] gets the captured events, the function name and the
    start time read before the hook was installed; the HTML it returns is
    written to the path [Path(output_dir) / "<name>_<timestamp>.html"] in
    the directory [mkdir] made; the line about the report is printed; and
    the call ends as the traced function ended. *)
Theorem report_written (w : World R) :
  events (final_world w) <> [] ->
  (forall evs nm s t,
     processed (final_world w) = processed w ++ [(evs, nm, s, t)] ->
     report_ok R output_dir (fs w) (stdout w) (evs, nm, s, t)) ->
  exists end_ns html fs1,
    processed (final_world w)
    = processed w ++ [(events (final_world w), name,
                       perf_counter R (perf_reads w), end_ns)] /\
    process_events R (events (final_world w)) name
      (perf_counter R (perf_reads w)) end_ns = Ok html /\
    mkdir R output_dir (fs w) = Ok fs1 /\
    write_text R (report_file R name output_dir) html fs1
    = Ok (fs (final_world w)) /\
    stdout (final_world w) = stdout w ++ [report_line R name output_dir] /\
    result_of w = outcome (fn_call func args kwargs).
Proof.
  intros Hne Hrep.
  destruct (wrapper_outcomes func output_dir args kwargs w)
    as (lo & hi & k & _ & _ & _ & Hcases).
  destruct (events (final_world w)) as [|x evs] eqn:Hevs; [congruence|].
  destruct Hcases as (Hlog & Hcases).
  destruct (Hrep _ _ _ _ Hlog) as (html & fs1 & fs2 & Hpe & Hmk & Hwr & Hpr).
  rewrite Hpe, Hmk, Hwr, Hpr in Hcases. destruct Hcases as (Hr & Hfs & Ho).
  exists (perf_counter R k), html, fs1.
  rewrite Hfs. auto 10.
Qed.

(** X12. The wrapper calls [process_events] at most once: not at all when
    no event was captured, and otherwise once, with the captured events,
    the name of the traced function, the start time read on entry and an
    end time read later from the same clock. *)
Theorem process_events_called_once (w : World R) :
  (events (final_world w) = [] /\ processed (final_world w) = processed w) \/
  (events (final_world w) <> [] /\
   exists k : nat,
     (perf_reads w < k)%nat /\
     processed (final_world w)
     = processed w ++ [(events (final_world w), name,
                        perf_counter R (perf_reads w), perf_counter R k)]).
Proof.
  destruct (wrapper_outcomes func output_dir args kwargs w)
    as (lo & hi & k & Hlo & Hhi & Hst & Hcases).
  apply stamped_le in Hst.
  destruct (events (final_world w)) as [|x evs] eqn:Hevs.
  - left. split; [reflexivity | apply Hcases].
  - right. split; [discriminate|]. exists k. split; [lia | apply Hcases].
Qed.

(** X13. Under a clock that never goes back, the window handed to
    [process_events] contains the trace: the start time is not after the
    end time, and every captured timestamp lies between them. *)
Theorem trace_window (w : World R) :
  monotone (perf_counter R) ->
  events (final_world w) <> [] ->
  exists end_ns,
    processed (final_world w)
    = processed w ++ [(events (final_world w), name,
                       perf_counter R (perf_reads w), end_ns)] /\
    perf_counter R (perf_reads w) <= end_ns /\
    Forall (fun r => perf_counter R (perf_reads w) <= timestamp_ns r /\
                     timestamp_ns r <= end_ns)
      (events (final_world w)).
Proof.
  intros Hmono Hne.
  destruct (wrapper_outcomes func output_dir args kwargs w)
    as (lo & hi & k & Hlo & Hhi & Hst & Hcases).
  pose proof (stamped_le _ _ _ _ Hst) as Hle.
  pose proof (stamped_lower_bound _ Hmono _ _ _ Hst) as Hlow.
  pose proof (stamped_upper_bound _ _ _ _ Hmono Hst) as Hup.
  exists (perf_counter R k). split; [|split].
  - destruct (events (final_world w)); [congruence | apply Hcases].
  - apply Hmono. lia.
  - apply Forall_forall. intros r Hr.
    rewrite Forall_forall in Hlow, Hup.
    specialize (Hlow r Hr). specialize (Hup r Hr). cbn beta in Hlow, Hup.
    pose proof (Hmono (perf_reads w) lo). pose proof (Hmono hi k). lia.
Qed.

(** X14. When events were captured, the wrapper's call of
    [process_events] succeeds and [mkdir] fails, the wrapped call raises
    the exception of [mkdir], whatever the traced function returned or
    raised; nothing is written and nothing is printed. *)
Theorem mkdir_failure_propagates (w : World R) (ex : exn) :
  events (final_world w) <> [] ->
  (forall evs nm s t,
     processed (final_world w) = processed w ++ [(evs, nm, s, t)] ->
     exists html, process_events R evs nm s t = Ok html) ->
  mkdir R output_dir (fs w) = Raise ex ->
  result_of w = Raise ex /\
  fs (final_world w) = fs w /\
  stdout (final_world w) = stdout w.
Proof.
  intros Hne Hpe Hmk.
  destruct (wrapper_outcomes func output_dir args kwargs w)
    as (lo & hi & k & _ & _ & _ & Hcases).
  destruct (events (final_world w)) as [|x evs] eqn:Hevs; [congruence|].
  destruct Hcases as (Hlog & Hcases).
  destruct (Hpe _ _ _ _ Hlog) as (html & Hhtml).
  rewrite Hhtml, Hmk in Hcases. exact Hcases.
Qed.

(** X15. When events were captured and the wrapper's call of
    [process_events] raises, the wrapped call raises that exception,
    whatever the traced function returned or raised; the output directory
    is not even created, and nothing is printed. *)
Theorem engine_failure_propagates (w : World R) (ex : exn) :
  events (final_world w) <> [] ->
  (forall evs nm s t,
     processed (final_world w) = processed w ++ [(evs, nm, s, t)] ->
     process_events R evs nm s t = Raise ex) ->
  result_of w = Raise ex /\
  fs (final_world w) = fs w /\
  stdout (final_world w) = stdout w.
Proof.
  intros Hne Hpe.
  destruct (wrapper_outcomes func output_dir args kwargs w)
    as (lo & hi & k & _ & _ & _ & Hcases).
  destruct (events (final_world w)) as [|x evs] eqn:Hevs; [congruence|].
  destruct Hcases as (Hlog & Hcases).
  rewrite (Hpe _ _ _ _ Hlog) in Hcases. exact Hcases.
Qed.

(** X16. The wrapper prints at most one line, and only after the report
    file was written: either nothing is printed, or exactly the line
    naming the path [Path(output_dir) / "<name>_<timestamp>.html"] is, and
    then events were captured, [process_events] returned the HTML,
    [mkdir] made the directory, [write_text] wrote the HTML to that path,
    leaving the files as they are in the end, and the call ends as the
    traced function ended. *)
Theorem line_printed_only_on_success (w : World R) :
  stdout (final_world w) = stdout w \/
  (stdout (final_world w) = stdout w ++ [report_line R name output_dir] /\
   events (final_world w) <> [] /\
   (exists end_ns html fs1,
      process_events R (events (final_world w)) name
        (perf_counter R (perf_reads w)) end_ns = Ok html /\
      mkdir R output_dir (fs w) = Ok fs1 /\
      write_text R (report_file R name output_dir) html fs1
      = Ok (fs (final_world w))) /\
   result_of w = outcome (fn_call func args kwargs)).
Proof.
  destruct (wrapper_outcomes func output_dir args kwargs w)
    as (lo & hi & k & _ & _ & _ & Hcases).
  destruct (events (final_world w)) as [|x evs] eqn:Hevs.
  - left. apply Hcases.
  - destruct Hcases as (_ & Hcases).
    destruct (process_events R (x :: evs) name _ _) as [html|e] eqn:Hpe;
      [|left; apply Hcases].
    destruct (mkdir R output_dir (fs w)) as [fs1|e] eqn:Hmk;
      [|left; apply Hcases].
    destruct (write_text R _ html fs1) as [fs2|e] eqn:Hwr;
      [|left; apply Hcases].
    destruct (print_error R (stdout w) _) as [e|]; [left; apply Hcases|].
    right. destruct Hcases as (Hr & Hfs & Ho).
    split; [exact Ho|]. split; [discriminate|]. split; [|exact Hr].
    exists (perf_counter R k), html, fs1. rewrite Hfs. auto.
Qed.

End ReportFacts.

(** ** The further properties on concrete runs *)

(** X2 on the standard library of the demo platform. *)
Lemma under_prefix_is_external_os :
  PyStr.starts_with (normpath linux "/usr/lib/python3.12/os.py")
    (normpath linux (sys_prefix linux)) /\
  _is_external linux (PyStr "/usr/lib/python3.12/os.py") = true.
Proof.
  assert (PyStr.starts_with (normpath linux "/usr/lib/python3.12/os.py")
            (normpath linux (sys_prefix linux))) as H.
  { exists "/lib/python3.12/os.py". vm_compute. reflexivity. }
  split; [exact H|].
  exact (under_prefix_is_external linux "/usr/lib/python3.12/os.py" H).
Defined.

(** X17 on two spellings of the application's main file. *)
Lemma is_external_by_normal_form_main :
  _is_external linux (PyStr "/home/u/app/./lib/../main.py")
  = _is_external linux (PyStr "/home/u/app/main.py").
Proof.
  apply (is_external_by_normal_form linux "/home/u/app/./lib/../main.py"
           "/home/u/app/main.py"); vm_compute; reflexivity.
Defined.

(** X4 for the empty module name. *)
Lemma library_name_fallbacks_empty_module :
  no_module (PyStr "") /\
  (_extract_library_name linux PyNone (PyStr "") = "<builtin>" /\
   (forall f,
      ~ PyStr.occurs_in "site-packages" f ->
      ~ PyStr.occurs_in "dist-packages" f ->
      _extract_library_name linux (PyStr f) (PyStr "") = "<stdlib>")).
Proof.
  assert (no_module (PyStr "")) as H by (right; reflexivity).
  split; [exact H|].
  exact (library_name_fallbacks linux (PyStr "") H).
Defined.

(** X5 on a module of the requests package. *)
Lemma library_name_of_requests :
  _extract_library_name linux
    (PyStr "/home/u/venv/lib/python3.12/site-packages/requests/api.py")
    PyNone
  = "requests".
Proof.
  apply (library_name_of_site_package linux
           "/home/u/venv/lib/python3.12/site-packages/requests/api.py"
           PyNone "site-packages" 28 "requests" "" "/api.py").
  - left. reflexivity.
  - left. reflexivity.
  - vm_compute. reflexivity.
  - vm_compute. reflexivity.
  - cbn. repeat split; discriminate.
  - cbn. repeat split; discriminate.
  - exact I.
  - left. reflexivity.
  - right. exists "api.py". reflexivity.
Defined.

(** X8 on a native callee with neither name nor module. *)
Lemma missing_attributes_anonymous_callee :
  exists r,
    events (snd (_profile_callback __name__ app_frame "c_call"
                   anonymous_callee (demo_world ∅)))
    = events (demo_world ∅) ++ [r] /\
    module r = PyStr "" /\
    (native_level "c_call" ->
     library_name r = "builtins" /\
     func_name r
     = default (str anonymous_callee) (attr___name__ anonymous_callee)).
Proof.
  apply (@missing_attributes_default (demo_runtime ticking) app_frame
           "c_call" anonymous_callee (demo_world ∅)).
  left. split; [left; reflexivity|]. split; [discriminate|].
  left. reflexivity.
Defined.

Lemma handler_only_notifies : only_notifications (script (fn_call handler [] ∅)).
Proof.
  intros a Ha. cbn in Ha.
  repeat (destruct Ha as [<- | Ha]; [eauto|]). contradiction.
Qed.

(** X10 on the handler: six notifications, six records. *)
Lemma every_notification_recorded_handler :
  only_notifications (script (fn_call handler [] ∅)) /\
  map key (events (final handler ".profile" [] ∅ (demo_world ∅)))
  = map label (List.filter recordable (script (fn_call handler [] ∅))).
Proof.
  split; [exact handler_only_notifies|].
  exact (@every_notification_recorded (demo_runtime ticking) Z handler
           ".profile" [] ∅ (demo_world ∅) handler_only_notifies).
Defined.

Lemma handler_captures_events (files : gmap string fs_node) :
  events (final handler ".profile" [] ∅ (demo_world files)) <> [].
Proof.
  intros Hnil.
  assert (map key (events (final handler ".profile" [] ∅ (demo_world files)))
          = map label (List.filter recordable (script (fn_call handler [] ∅))))
    as Hk.
  { apply (@final_events_keys (demo_runtime ticking) Z handler
             ".profile" [] ∅ (demo_world files)).
    exact handler_only_notifies. }
  rewrite Hnil in Hk. vm_compute in Hk. discriminate.
Qed.

(** X11 on the handler and an empty file system. *)
Lemma report_written_handler :
  exists end_ns html fs1,
    processed (final handler ".profile" [] ∅ (demo_world ∅))
    = processed (demo_world ∅)
      ++ [(events (final handler ".profile" [] ∅ (demo_world ∅)), "handler",
           perf_counter (demo_runtime ticking) (perf_reads (demo_world ∅)),
           end_ns)] /\
    process_events (demo_runtime ticking)
      (events (final handler ".profile" [] ∅ (demo_world ∅))) "handler"
      (perf_counter (demo_runtime ticking) (perf_reads (demo_world ∅)))
      end_ns = Ok html /\
    mkdir (demo_runtime ticking) ".profile" (fs (demo_world ∅)) = Ok fs1 /\
    write_text (demo_runtime ticking)
      (report_file (demo_runtime ticking) "handler" ".profile") html fs1
    = Ok (fs (final handler ".profile" [] ∅ (demo_world ∅))) /\
    stdout (final handler ".profile" [] ∅ (demo_world ∅))
    = stdout (demo_world ∅)
      ++ [report_line (demo_runtime ticking) "handler" ".profile"] /\
    returned handler ".profile" [] ∅ (demo_world ∅)
    = outcome (fn_call handler [] ∅).
Proof.
  exact (@report_written (demo_runtime ticking) Z handler ".profile" [] ∅
           (demo_world ∅) (handler_captures_events ∅) handler_report_ok).
Defined.

(** X13 on the handler under the ticking clock. *)
Lemma trace_window_handler :
  exists end_ns,
    processed (final handler ".profile" [] ∅ (demo_world ∅))
    = processed (demo_world ∅)
      ++ [(events (final handler ".profile" [] ∅ (demo_world ∅)), "handler",
           perf_counter (demo_runtime ticking) (perf_reads (demo_world ∅)),
           end_ns)] /\
    perf_counter (demo_runtime ticking) (perf_reads (demo_world ∅))
    <= end_ns /\
    Forall (fun r =>
              perf_counter (demo_runtime ticking) (perf_reads (demo_world ∅))
              <= timestamp_ns r /\ timestamp_ns r <= end_ns)
      (events (final handler ".profile" [] ∅ (demo_world ∅))).
Proof.
  exact (@trace_window (demo_runtime ticking) Z handler ".profile" [] ∅
           (demo_world ∅) ticking_monotone (handler_captures_events ∅)).
Defined.

(** X14 with a regular file in the place of the output directory. *)
Lemma mkdir_failure_handler :
  returned handler ".profile" [] ∅ (demo_world {[ ".profile" := File "x" ]})
  = Raise (PyExc "FileExistsError") /\
  fs (final handler ".profile" [] ∅ (demo_world {[ ".profile" := File "x" ]}))
  = fs (demo_world {[ ".profile" := File "x" ]}) /\
  stdout
    (final handler ".profile" [] ∅ (demo_world {[ ".profile" := File "x" ]}))
  = stdout (demo_world {[ ".profile" := File "x" ]}).
Proof.
  apply (@mkdir_failure_propagates (demo_runtime ticking) Z handler
           ".profile" [] ∅ (demo_world {[ ".profile" := File "x" ]})
           (PyExc "FileExistsError")).
  - apply handler_captures_events.
  - intros evs nm s t _. eexists. reflexivity.
  - vm_compute. reflexivity.
Defined.

Lemma handler_captures_events_broken :
  events (final (R := broken_engine_runtime) handler ".profile" [] ∅
            (fresh_world (R := broken_engine_runtime) ∅)) <> [].
Proof.
  intros Hnil.
  assert (map key
            (events (final (R := broken_engine_runtime) handler ".profile"
                       [] ∅ (fresh_world (R := broken_engine_runtime) ∅)))
          = map label (List.filter recordable (script (fn_call handler [] ∅))))
    as Hk.
  { apply (@final_events_keys broken_engine_runtime Z handler
             ".profile" [] ∅ (fresh_world (R := broken_engine_runtime) ∅)).
    exact handler_only_notifies. }
  rewrite Hnil in Hk. vm_compute in Hk. discriminate.
Qed.

(** X15 with a compiled module that refuses every event list. *)
Lemma engine_failure_handler :
  returned (R := broken_engine_runtime) handler ".profile" [] ∅
    (fresh_world (R := broken_engine_runtime) ∅)
  = Raise (PyExc "RuntimeError") /\
  fs (final (R := broken_engine_runtime) handler ".profile" [] ∅
        (fresh_world (R := broken_engine_runtime) ∅))
  = fs (fresh_world (R := broken_engine_runtime) ∅) /\
  stdout (final (R := broken_engine_runtime) handler ".profile" [] ∅
            (fresh_world (R := broken_engine_runtime) ∅))
  = stdout (fresh_world (R := broken_engine_runtime) ∅).
Proof.
  apply (@engine_failure_propagates broken_engine_runtime Z handler
           ".profile" [] ∅ (fresh_world (R := broken_engine_runtime) ∅)
           (PyExc "RuntimeError")).
  - exact handler_captures_events_broken.
  - intros evs nm s t _. reflexivity.
Defined.

(** The path of the report is made by [pathlib]: a trailing separator of
    the output directory is not doubled, and the empty directory gives a
    relative name. *)
Example report_file_spelling :
  report_file (demo_runtime ticking) "handler" "out/"
  = "out/handler_20240101_120000.html" /\
  report_file (demo_runtime ticking) "handler" ""
  = "handler_20240101_120000.html" /\
  report_file (demo_runtime ticking) "handler" "./profiles"
  = "profiles/handler_20240101_120000.html".
Proof. repeat split; vm_compute; reflexivity. Qed.

(** With a closed standard output the report is written, and the
    exception of [print] replaces the value the handler returned. *)
Example print_failure_replaces_result :
  returned (R := closed_stdout_runtime) handler ".profile" [] ∅
    (fresh_world (R := closed_stdout_runtime) ∅)
  = Raise (PyExc "ValueError") /\
  fs (final (R := closed_stdout_runtime) handler ".profile" [] ∅
        (fresh_world (R := closed_stdout_runtime) ∅))
  !! ".profile/handler_20240101_120000.html"
  = Some (File "<html>handler</html>") /\
  stdout (final (R := closed_stdout_runtime) handler ".profile" [] ∅
            (fresh_world (R := closed_stdout_runtime) ∅)) = [].
Proof. repeat split; vm_compute; reflexivity. Qed.
